(** * DRemailer: a store-and-forward mail relay

    A shallow embedding of the relay engine ([dremailer.ts]), of the upstream
    sender ([dmailsender.ts]), of the control routes ([routes.ts]) and of the
    key-checked admin API of the first bootstrap ([main.ts]), followed by the
    properties of the specification that were checked against them.

    Conventions of the embedding:
    - a JavaScript string is a [string] of 8-bit characters; every character
      the code inspects (['@'], ['.'], ['_'], digits, white space) is ASCII;
    - the file system is a finite map from the path of a directory to its
      listing, kept in the order in which [readdir] enumerates it;
    - the methods of the class run in a state monad over the instance, the
      disk and a trace of the observable calls (logger, configuration hooks,
      SMTP completion callback, file-system requests, upstream submissions);
    - a promise is modelled by its settled outcome: [inr v] for a promise
      fulfilled with [v] and [inl err] for one rejected with [err]; the same
      sum is used for a call that may throw. *)

From Stdlib Require Import ZArith QArith Ascii.
From stdpp Require Import base option list gmap strings sorting pretty.

Local Open Scope Z_scope.

(** ** JavaScript string primitives used by the sources *)

Module Js.

(** [s.replace(/[@.]/g, "-")] *)
Definition is_at_or_dot (c : ascii) : bool :=
  match c with
  | "@"%char | "."%char => true
  | _ => false
  end.

Fixpoint replace_at_dot (s : string) : string :=
  match s with
  | EmptyString => EmptyString
  | String c r =>
      String (if is_at_or_dot c then "-"%char else c) (replace_at_dot r)
  end.

(** [s.replace(/[^\d]/g, "")] *)
Definition is_digit (c : ascii) : bool :=
  match Ascii.is_nat c with Some _ => true | None => false end.

Fixpoint keep_digits (s : string) : string :=
  match s with
  | EmptyString => EmptyString
  | String c r =>
      if is_digit c then String c (keep_digits r) else keep_digits r
  end.

(** [arr.join(sep)] *)
Fixpoint join (sep : string) (l : list string) : string :=
  match l with
  | [] => ""
  | [x] => x
  | x :: r => x +:+ sep +:+ join sep r
  end.

(** The text after the last separator [sep], the whole string when it
    has none.  [cur] is the segment being read, in reverse. *)
Fixpoint last_segment_go (sep : ascii) (cur : string) (s : string) : string :=
  match s with
  | EmptyString => String.rev cur
  | String c r =>
      if Ascii.eqb c sep then last_segment_go sep "" r
      else last_segment_go sep (String c cur) r
  end.

(** [s.split('.').pop()] *)
Definition split_dot_pop (s : string) : string :=
  last_segment_go "."%char "" s.

(** [path.basename(dir)] of a normalised path. *)
Definition path_basename (s : string) : string :=
  last_segment_go "/"%char "" s.

(** A message followed by a value, as the loggers print it through
    [util.inspect]: a string is quoted. *)
Definition inspected (msg v : string) : string :=
  msg +:+ " ('" +:+ v +:+ "')".

(** [s.trim()], on the ASCII white space characters. *)
Fixpoint trim_start (s : string) : string :=
  match s with
  | EmptyString => EmptyString
  | String c r => if Ascii.is_space c then trim_start r else s
  end.

Definition trim (s : string) : string :=
  String.rev (trim_start (String.rev (trim_start s))).

(** Truthiness of a string: only the empty string is falsy. *)
Definition truthy (s : string) : bool :=
  match s with EmptyString => false | _ => true end.

(** Membership of a character in a string. *)
Fixpoint has_char (c : ascii) (s : string) : bool :=
  match s with
  | EmptyString => false
  | String d r => Ascii.eqb c d || has_char c r
  end.

(** [s.endsWith(suffix)], used to phrase "has extension .eml". *)
Fixpoint ends_with (suffix s : string) : bool :=
  String.eqb s suffix ||
  match s with
  | EmptyString => false
  | String _ r => ends_with suffix r
  end.

End Js.

(** ** The clock: [new Date().toISOString()] *)

Record Date := mkDate {
  year : Z;
  month : nat;       (* 1..12 *)
  day : nat;         (* 1..31 *)
  hours : nat;
  minutes : nat;
  seconds : nat;
  milliseconds : nat
}.

Definition digit_char (d : nat) : ascii := ascii_of_nat (48 + d mod 10).

(** The [w] low decimal digits of [n], most significant first. *)
Fixpoint pad_dec (w : nat) (n : nat) : string :=
  match w with
  | O => ""
  | S w' => pad_dec w' (n / 10) +:+ String (digit_char n) ""
  end.

(** ECMAScript prints years 0..9999 on four digits and any other year as a
    sign followed by six digits. *)
Definition iso_year (y : Z) : string :=
  if (0 <=? y) && (y <=? 9999) then pad_dec 4 (Z.to_nat y)
  else (if 0 <=? y then "+" else "-") +:+ pad_dec 6 (Z.to_nat (Z.abs y)).

Definition toISOString (d : Date) : string :=
  iso_year (year d) +:+ "-" +:+ pad_dec 2 (month d) +:+ "-" +:+
  pad_dec 2 (day d) +:+ "T" +:+ pad_dec 2 (hours d) +:+ ":" +:+
  pad_dec 2 (minutes d) +:+ ":" +:+ pad_dec 2 (seconds d) +:+ "." +:+
  pad_dec 3 (milliseconds d) +:+ "Z".

(** ** SMTP sessions as [smtp-server] hands them to [onData] *)

Record SMTPServerAddress := mkAddress { address : string }.

Record SMTPServerSession := mkSession {
  id : string;
  mailFrom : option SMTPServerAddress;         (* [false] when absent *)
  rcptTo : option (list SMTPServerAddress)
}.

(** The name under which [saveEmailToDisk] stores a message
    (dremailer.ts, lines 570-575). *)
Definition emlFileName (now : Date) (session : SMTPServerSession) : string :=
  let currentDate := Js.keep_digits (toISOString now) in
  let fromAddr :=
    match mailFrom session with
    | Some a => Js.replace_at_dot (address a)
    | None => "bho"
    end in
  let toAddr := match rcptTo session with Some l => l | None => [] end in
  let toAddrStr :=
    Js.join "-" (map (fun a => Js.replace_at_dot (address a)) toAddr) in
  currentDate +:+ "_" +:+ id session +:+ "_" +:+ fromAddr +:+ "_" +:+
  toAddrStr +:+ ".eml".

(** ** Errors, file system and the trace of observable calls *)

Record Error := mkError { message : string }.

Inductive DLogLevel := DEBUG | INFO | WARNING | ERROR.

(** A file is named by the directory that holds it and its name in there:
    [path.join(folder, fileName)], [path.dirname] and [path.basename]. *)
Record Path := mkPath { dirname : string; basename : string }.

Definition path_str (p : Path) : string := dirname p +:+ "/" +:+ basename p.

Global Instance Path_eq_dec : EqDecision Path.
Proof. solve_decision. Defined.

(** An entry of a directory as [readdir] with [withFileTypes] reports it,
    together with the bytes of the file. *)
Record Dirent := mkDirent {
  name : string;
  isDirectory : bool;
  data : list Byte.byte
}.

Abbreviation FS := (gmap string (list Dirent)).

Module Fs.

Definition ENOENT : Error := mkError "ENOENT: no such file or directory".
Definition EISDIR : Error := mkError "EISDIR: illegal operation on a directory".

Definition find_entry (n : string) (l : list Dirent) : option Dirent :=
  List.find (fun e => String.eqb (name e) n) l.

Definition remove_entry (n : string) (l : list Dirent) : list Dirent :=
  List.filter (fun e => negb (String.eqb (name e) n)) l.

Definition existsSync (d : string) (fs : FS) : bool :=
  match fs !! d with Some _ => true | None => false end.

Definition lookup_file (p : Path) (fs : FS) : option Dirent :=
  match fs !! dirname p with
  | Some l => find_entry (basename p) l
  | None => None
  end.

(** [fs.readdir(dir, {withFileTypes: true})] *)
Definition readdir (d : string) (fs : FS) : Error + list Dirent :=
  match fs !! d with Some l => inr l | None => inl ENOENT end.

(** [fs.rename(src, dst)]: fails when the source or the target directory
    is missing; an entry of that name in the target is replaced. *)
Definition rename (src dst : Path) (fs : FS) : Error + FS :=
  match lookup_file src fs, fs !! dirname dst with
  | Some e, Some _ =>
      if decide (src = dst) then inr fs
      else
        let fs1 :=
          <[dirname src :=
              remove_entry (basename src) (default [] (fs !! dirname src))]> fs in
        let ld := default [] (fs1 !! dirname dst) in
        inr (<[dirname dst :=
                 remove_entry (basename dst) ld ++
                 [mkDirent (basename dst) (isDirectory e) (data e)]]> fs1)
  | _, _ => inl ENOENT
  end.

(** [fs.unlink(p)] *)
Definition unlink (p : Path) (fs : FS) : Error + FS :=
  match lookup_file p fs with
  | Some e =>
      if isDirectory e then inl EISDIR
      else inr (<[dirname p :=
                    remove_entry (basename p) (default [] (fs !! dirname p))]> fs)
  | None => inl ENOENT
  end.

(** [stream.pipe(fs.createWriteStream(p))] run to its [finish] or [error]
    event: the file is created, or truncated when it exists. *)
Definition write (p : Path) (bytes : list Byte.byte) (fs : FS) : Error + FS :=
  match fs !! dirname p with
  | None => inl ENOENT
  | Some l =>
      match find_entry (basename p) l with
      | Some e =>
          if isDirectory e then inl EISDIR
          else inr (<[dirname p :=
                        remove_entry (basename p) l ++
                        [mkDirent (basename p) false bytes]]> fs)
      | None => inr (<[dirname p := l ++ [mkDirent (basename p) false bytes]]> fs)
      end
  end.

End Fs.

(** *** What [mailparser] returns and what [nodemailer] accepts *)

Record EmailAddress := mkEmailAddress { addr : string; display : string }.

Record AddressObject := mkAddressObject {
  value : list EmailAddress;
  text : string
}.

(** [AddressObject | AddressObject[]] *)
Inductive AddressField :=
  | One (a : AddressObject)
  | Many (l : list AddressObject).

Record ParsedMail := mkParsedMail {
  from : option AddressObject;
  to : option AddressField;
  subject : option string;
  body_text : option string;
  body_html : option string;          (* [string | false] *)
  attachments : list (list Byte.byte)
}.

(** [string | Array<string>] *)
Inductive Recipients :=
  | RText (s : string)
  | RList (l : list string).

Record MailOptions := mkMailOptions {
  mo_from : string;
  mo_to : Recipients;
  mo_subject : option string;
  mo_text : option string;
  mo_html : option string;
  mo_attachments : list (list Byte.byte)
}.

(** The receipt of the upstream server. *)
Record SentInfo := mkSentInfo { response : string }.

(** One observable call.  An [On...] event is the optional call
    [this.config.on...?.(...)], which runs the hook when one is configured. *)
Inductive Event :=
  | Log (level : DLogLevel) (msg : string)
  | OnReceiving (session : SMTPServerSession)
  | OnSaving (session : SMTPServerSession)
  | OnSaved (session : SMTPServerSession)
  | OnReject (session : SMTPServerSession) (err : Error)
  | OnForwarding (emlFile : string)
  | OnForwarded (emlFile : string)
  | OnError (err : Error)
  | OnWarning (err : Error)
  | PipeNull (session : SMTPServerSession)   (* [stream.pipe(nullStream())] *)
  | Callback (err : option Error)            (* the completion callback of DATA *)
  | FsWrite (p : Path)
  | FsRename (src dst : Path)
  | FsUnlink (p : Path)
  | SendMail (m : MailOptions).

(** ** The upstream sender ([dmailsender.ts]) *)

Module DStatus.
Record t := mk { ready : bool; message : string }.
End DStatus.

Record DMailSender := mkDMailSender {
  transporter : bool;               (* [Transporter | undefined] *)
  sender_status : DStatus.t
}.

(** [convertAddress] (dmailsender.ts, lines 249-264). *)
Definition convertAddress (addressObject : option AddressField)
  : option Recipients :=
  match addressObject with
  | None => None
  | Some (Many l) => Some (RList (map text l))
  | Some (One a) => Some (RText (text a))
  end.

(** Truthiness of [string | Array<string> | undefined]: an array is an
    object and is truthy whatever it holds. *)
Definition recipients_truthy (r : option Recipients) : bool :=
  match r with
  | None => false
  | Some (RText s) => Js.truthy s
  | Some (RList _) => true
  end.

(** ** The remailer instance ([dremailer.ts]) *)

Record DRemailerConfig := mkConfig {
  listenerAddress : option string;
  listenerPort : option Z;
  listenerSecure : option bool;
  listenerLmtp : option bool;
  senderSmtpHost : option string;
  senderSmtpPort : option Z;
  senderSmtpSecure : option bool;
  senderIgnoreInvalidCert : option bool;
  senderLmtp : option bool;
  backupEnabled : option bool
}.

(** [DRemailerStorage]: the five queues, also the answer of a rescan. *)
Record DRemailerStorage := mkStorage {
  parking : list string;
  direct : list string;
  error : list string;
  parkingBackup : list string;
  directBackup : list string
}.

(** The five directories; [None] is [undefined].  [path.join] never
    returns the empty string, so [undefined] is the only falsy value. *)
Record EmlDirs := mkDirs {
  parkingDir : option string;
  directDir : option string;
  errorDir : option string;
  parkingBackupDir : option string;
  directBackupDir : option string
}.

Record DRemailer := mkDRemailer {
  config : DRemailerConfig;
  smtpServer : bool;                   (* [SMTPServer | undefined] *)
  mailSender : option DMailSender;     (* the static [DRemailer.mailSender] *)
  timerIntervalMs : Z;
  queues : DRemailerStorage;
  emlScanning : bool;
  dirs : EmlDirs;
  status : DStatus.t;
  listenerRunning : bool;
  senderPaused : bool;
  listenerPaused : bool
}.

Definition emlParkingQueue (r : DRemailer) := parking (queues r).
Definition emlDirectQueue (r : DRemailer) := direct (queues r).
Definition emlErrorQueue (r : DRemailer) := error (queues r).
Definition emlParkingBackupQueue (r : DRemailer) := parkingBackup (queues r).
Definition emlDirectBackupQueue (r : DRemailer) := directBackup (queues r).
Definition emlParkingDir (r : DRemailer) := parkingDir (dirs r).
Definition emlDirectDir (r : DRemailer) := directDir (dirs r).
Definition emlErrorDir (r : DRemailer) := errorDir (dirs r).
Definition emlParkingBackupDir (r : DRemailer) := parkingBackupDir (dirs r).
Definition emlDirectBackupDir (r : DRemailer) := directBackupDir (dirs r).

Definition set_queues (q : DRemailerStorage) (r : DRemailer) : DRemailer :=
  mkDRemailer (config r) (smtpServer r) (mailSender r) (timerIntervalMs r)
    q (emlScanning r) (dirs r) (status r)
    (listenerRunning r) (senderPaused r) (listenerPaused r).

Definition set_emlParkingQueue (l : list string) (r : DRemailer) : DRemailer :=
  set_queues (mkStorage l (emlDirectQueue r) (emlErrorQueue r)
                (emlParkingBackupQueue r) (emlDirectBackupQueue r)) r.

Definition set_emlScanning (b : bool) (r : DRemailer) : DRemailer :=
  mkDRemailer (config r) (smtpServer r) (mailSender r) (timerIntervalMs r)
    (queues r) b (dirs r) (status r)
    (listenerRunning r) (senderPaused r) (listenerPaused r).

Definition set_dirs (d : EmlDirs) (r : DRemailer) : DRemailer :=
  mkDRemailer (config r) (smtpServer r) (mailSender r) (timerIntervalMs r)
    (queues r) (emlScanning r) d (status r)
    (listenerRunning r) (senderPaused r) (listenerPaused r).

Definition set_status (s : DStatus.t) (r : DRemailer) : DRemailer :=
  mkDRemailer (config r) (smtpServer r) (mailSender r) (timerIntervalMs r)
    (queues r) (emlScanning r) (dirs r) s
    (listenerRunning r) (senderPaused r) (listenerPaused r).

Definition set_senderPaused (b : bool) (r : DRemailer) : DRemailer :=
  mkDRemailer (config r) (smtpServer r) (mailSender r) (timerIntervalMs r)
    (queues r) (emlScanning r) (dirs r) (status r)
    (listenerRunning r) b (listenerPaused r).

Definition set_listenerPaused (b : bool) (r : DRemailer) : DRemailer :=
  mkDRemailer (config r) (smtpServer r) (mailSender r) (timerIntervalMs r)
    (queues r) (emlScanning r) (dirs r) (status r)
    (listenerRunning r) (senderPaused r) b.

(** ** The state monad of the methods *)

Record Machine := mkMachine {
  self : DRemailer;
  disk : FS;
  trace : list Event
}.

Definition M (A : Type) : Type := Machine -> A * Machine.

Global Instance M_ret : MRet M := fun A a m => (a, m).
Global Instance M_bind : MBind M :=
  fun A B k c m => k (c m).1 (c m).2.

Definition emit (e : Event) : M unit :=
  fun m => (tt, mkMachine (self m) (disk m) (trace m ++ [e])).
Definition get_self : M DRemailer := fun m => (self m, m).
Definition modify_self (f : DRemailer -> DRemailer) : M unit :=
  fun m => (tt, mkMachine (f (self m)) (disk m) (trace m)).
Definition get_disk : M FS := fun m => (disk m, m).
Definition put_disk (fs : FS) : M unit :=
  fun m => (tt, mkMachine (self m) fs (trace m)).

(** The static loggers [log.d], [log.i], [log.w], [log.e] print the message
    and return it. *)
Definition log (level : DLogLevel) (msg : string) : M string :=
  emit (Log level msg);; mret msg.
Definition log_d := log DEBUG.
Definition log_i := log INFO.
Definition log_w := log WARNING.
Definition log_e := log ERROR.

(** [Promise.reject(new Error(log.e(msg)))] *)
Definition reject_logged {A} (msg : string) : M (Error + A) :=
  logged ← log_e msg; mret (inl (mkError logged)).

(** *** Storage *)

Definition show_dir (d : option string) : string :=
  match d with Some s => s | None => "undefined" end.

(** [isStorageReady] (dremailer.ts, lines 373-405).  With [checkExisting]
    every directory that has vanished from the disk is forgotten. *)
Definition isStorageReady (checkExisting : bool) : M bool :=
  r ← get_self;
  match emlParkingDir r, emlDirectDir r, emlErrorDir r,
        emlParkingBackupDir r, emlDirectBackupDir r with
  | Some p, Some d, Some e, Some pb, Some db =>
      if checkExisting then
        log_d "Check existing";;
        fs ← get_disk;
        let keep dir := if Fs.existsSync dir fs then Some dir else None in
        modify_self (set_dirs (mkDirs (keep p) (keep d) (keep e) (keep pb) (keep db)));;
        mret (Fs.existsSync p fs && Fs.existsSync d fs && Fs.existsSync e fs &&
              Fs.existsSync pb fs && Fs.existsSync db fs)
      else mret true
  | _, _, _, _, _ =>
      log_e ("Storage not ready: Interval ms=" +:+ pretty (timerIntervalMs r) +:+
             " Parking folder=" +:+ show_dir (emlParkingDir r) +:+
             " Direct folder=" +:+ show_dir (emlDirectDir r) +:+
             " Error folder=" +:+ show_dir (emlErrorDir r) +:+
             " Parking backup folder=" +:+ show_dir (emlParkingBackupDir r) +:+
             " Direct backup folder=" +:+ show_dir (emlDirectBackupDir r));;
      mret false
  end.

(** The filter of both scans:
    [!item.isDirectory() && item.name.split('.').pop() == "eml"]. *)
Definition is_eml (item : Dirent) : bool :=
  negb (isDirectory item) && String.eqb (Js.split_dot_pop (name item)) "eml".

(** [findFiles] (routes.ts, lines 86-100). *)
Definition findFiles (folderPath : string) (extFilter : option string) (fs : FS)
  : Error + list string :=
  match Fs.readdir folderPath fs with
  | inl err => inl err
  | inr files =>
      inr (map name
             (List.filter
                (fun item =>
                   negb (isDirectory item) &&
                   match extFilter with
                   | Some ext =>
                       if Js.truthy ext
                       then String.eqb (Js.split_dot_pop (name item)) ext
                       else true
                   | None => true
                   end) files))
  end.

(** A directory field read through the non-null assertion [this.dir!]. *)
Definition asserted (d : option string) : string := default "undefined" d.

(** The common prologue of both scans when the storage is not ready. *)
Definition storage_unavailable : M Error :=
  modify_self (set_queues (mkStorage [] [] [] [] []));;
  let err := mkError "Parking storage folder not available" in
  msg ← log_e (message err);
  modify_self (set_status (DStatus.mk false msg));;
  emit (OnError err);;
  mret err.

(** [scanStorageAsync] (dremailer.ts, lines 474-522). *)
Definition scanStorageAsync : M (Error + DRemailerStorage) :=
  log_d "Scanning eml files...";;
  ok ← isStorageReady true;
  if negb ok then err ← storage_unavailable; mret (inl err)
  else
    r ← get_self;
    if emlScanning r then
      msg ← log_w "Already scanning..."; mret (inl (mkError msg))
    else
      modify_self (set_emlScanning true);;
      fs ← get_disk;
      log_d "Start async scan parking";;
      let pParking := findFiles (asserted (emlParkingDir r)) (Some "eml") fs in
      log_d "Start async scan direct";;
      let pDirect := findFiles (asserted (emlDirectDir r)) (Some "eml") fs in
      log_d "Start async scan error";;
      let pError := findFiles (asserted (emlErrorDir r)) (Some "eml") fs in
      log_d "Start async scan parking backup";;
      let pParkingBackup :=
        findFiles (asserted (emlParkingBackupDir r)) (Some "eml") fs in
      log_d "Start async scan direct backup";;
      let pDirectBackup :=
        findFiles (asserted (emlDirectBackupDir r)) (Some "eml") fs in
      match pParking, pDirect, pError, pParkingBackup, pDirectBackup with
      | inr qp, inr qd, inr qe, inr qpb, inr qdb =>
          log_d "End async scan";;
          modify_self (set_queues (mkStorage qp qd qe qpb qdb));;
          modify_self (set_emlScanning false);;
          r' ← get_self;
          mret (inr (queues r'))
      | inl err, _, _, _, _
      | _, inl err, _, _, _
      | _, _, inl err, _, _
      | _, _, _, inl err, _
      | _, _, _, _, inl err => mret (inl err)
      end.

(** [readdirSync(dir).filter(...).map(item => item.name)] *)
Definition readdirSync_eml (d : option string) (fs : FS) : Error + list string :=
  match Fs.readdir (asserted d) fs with
  | inl err => inl err
  | inr files => inr (map name (List.filter is_eml files))
  end.

(** [scanStorageSync] (dremailer.ts, lines 528-565); [inl] when a
    [readdirSync] throws, [inr None] when the method returns [undefined]. *)
Definition scanStorageSync : M (Error + option DRemailerStorage) :=
  log_d "Scanning eml files...";;
  ok ← isStorageReady true;
  if negb ok then _ ← storage_unavailable; mret (inr None)
  else
    r ← get_self;
    if emlScanning r then log_w "Already scanning...";; mret (inr None)
    else
      modify_self (set_emlScanning true);;
      fs ← get_disk;
      match readdirSync_eml (emlParkingDir r) fs with
      | inl err => mret (inl err)
      | inr qp =>
      modify_self (fun r => set_queues (mkStorage qp (emlDirectQueue r)
        (emlErrorQueue r) (emlParkingBackupQueue r) (emlDirectBackupQueue r)) r);;
      match readdirSync_eml (emlDirectDir r) fs with
      | inl err => mret (inl err)
      | inr qd =>
      modify_self (fun r => set_queues (mkStorage (emlParkingQueue r) qd
        (emlErrorQueue r) (emlParkingBackupQueue r) (emlDirectBackupQueue r)) r);;
      match readdirSync_eml (emlErrorDir r) fs with
      | inl err => mret (inl err)
      | inr qe =>
      modify_self (fun r => set_queues (mkStorage (emlParkingQueue r)
        (emlDirectQueue r) qe (emlParkingBackupQueue r) (emlDirectBackupQueue r)) r);;
      match readdirSync_eml (emlParkingBackupDir r) fs with
      | inl err => mret (inl err)
      | inr qpb =>
      modify_self (fun r => set_queues (mkStorage (emlParkingQueue r)
        (emlDirectQueue r) (emlErrorQueue r) qpb (emlDirectBackupQueue r)) r);;
      match readdirSync_eml (emlDirectBackupDir r) fs with
      | inl err => mret (inl err)
      | inr qdb =>
      modify_self (fun r => set_queues (mkStorage (emlParkingQueue r)
        (emlDirectQueue r) (emlErrorQueue r) (emlParkingBackupQueue r) qdb) r);;
      msg ← log_d "eml files scanning end";
      modify_self (set_status (DStatus.mk true msg));;
      modify_self (set_emlScanning false);;
      r' ← get_self;
      mret (inr (Some (queues r')))
      end end end end end.

(** [saveEmailToDisk] (dremailer.ts, lines 567-590); [now] is the reading
    of the clock and [stream] the bytes of the DATA phase. *)
Definition saveEmailToDisk (now : Date) (stream : list Byte.byte)
    (session : SMTPServerSession) (folder : string) : M (Error + string) :=
  emit (OnSaving session);;
  log_d ("Try to save email id: " +:+ id session +:+ " to " +:+ folder);;
  let fileName := emlFileName now session in
  let filePath := mkPath folder fileName in
  emit (FsWrite filePath);;
  fs ← get_disk;
  match Fs.write filePath stream fs with
  | inr fs' =>
      put_disk fs';;
      log_d ("email id " +:+ id session +:+ " saved to " +:+ folder);;
      emit (OnSaved session);;
      mret (inr fileName)
  | inl error =>
      emit (OnError error);;
      msg ← log_e (Js.inspected "Error saving email to disk:" (message error));
      mret (inl (mkError msg))
  end.

(** [moveToError] (dremailer.ts, lines 683-697). *)
Definition moveToError (emlFilename : Path) (error : Error) : M unit :=
  r ← get_self;
  match emlErrorDir r with
  | None =>
      let err := mkError ("Cannot move " +:+ path_str emlFilename +:+
                          " to error folder: folder is unavailable") in
      log_e (message err);;
      emit (OnError err)
  | Some errorDir =>
      let emlFile := basename emlFilename in
      let target := mkPath errorDir emlFile in
      emit (FsRename emlFilename target);;
      fs ← get_disk;
      match Fs.rename emlFilename target fs with
      | inr fs' => put_disk fs'
      | inl err =>
          log_e (Js.inspected ("Cannot move " +:+ emlFile +:+ " to error folder: ")
                   (message err));;
          emit (OnError err)
      end
  end.

(** [moveToParkingBackup] and [moveToDirectBackup]
    (dremailer.ts, lines 699-741) differ by the directory and the texts. *)
Definition moveToBackup (backupDir : option string) (unavailable failed : string)
    (emlFilename : Path) : M (Error + unit) :=
  let emlFile := basename emlFilename in
  match backupDir with
  | None =>
      let err := mkError ("Cannot move " +:+ path_str emlFilename +:+ unavailable) in
      log_e (message err);;
      emit (OnError err);;
      mret (inl err)
  | Some dir =>
      let target := mkPath dir emlFile in
      emit (FsRename emlFilename target);;
      fs ← get_disk;
      match Fs.rename emlFilename target fs with
      | inr fs' => put_disk fs';; mret (inr tt)
      | inl err =>
          log_e (Js.inspected ("Cannot move " +:+ emlFile +:+ failed) (message err));;
          emit (OnError err);;
          mret (inl err)
      end
  end.

Definition moveToParkingBackup (emlFilename : Path) : M (Error + unit) :=
  r ← get_self;
  moveToBackup (emlParkingBackupDir r)
    " to backup folder: folder is unavailable"
    " to parking bakup folder: " emlFilename.

Definition moveToDirectBackup (emlFilename : Path) : M (Error + unit) :=
  r ← get_self;
  moveToBackup (emlDirectBackupDir r)
    " to direct backup folder: folder is unavailable"
    " to error folder: " emlFilename.

(** *** Pause flags (dremailer.ts, lines 941-964) *)

Definition suspendSender (suspended : bool) : M unit :=
  log_d "Suspending sender...";;
  r ← get_self;
  (if negb (Bool.eqb (senderPaused r) suspended) then
     if suspended then log_w "Sender manual PAUSED";; mret tt
     else log_i "Sender manual UN-PAUSED";; mret tt
   else mret tt);;
  modify_self (set_senderPaused suspended).

Definition suspendListener (suspended : bool) : M unit :=
  r ← get_self;
  (if negb (Bool.eqb (listenerPaused r) suspended) then
     if suspended then log_w "Listener manual PAUSED";; mret tt
     else if smtpServer r then log_i "Listener manual UN-PAUSED";; mret tt
     else mret tt
   else mret tt);;
  modify_self (set_listenerPaused suspended).

(** *** Status snapshot (dremailer.ts, lines 966-994) *)

Module ListenerStatus.
Record t := mk {
  ready : bool; running : bool; address : string; port : Z;
  mode : string; TLS : bool
}.
End ListenerStatus.

Module SenderStatus.
Record t := mk {
  ready : bool; running : bool; host : string; port : Z;
  mode : string; TLS : bool; ignoreCRT : bool
}.
End SenderStatus.

Module TimerStatus.
Record t := mk { enabled : bool; sec : Q }.
End TimerStatus.

Module StorageStatus.
Record t := mk { ready : bool }.
End StorageStatus.

Record DRemailerStatus := mkDRemailerStatus {
  listener : ListenerStatus.t;
  sender : SenderStatus.t;
  storage : StorageStatus.t;
  timer : TimerStatus.t
}.

(** Truthiness of the optional configuration fields. *)
Definition truthy_flag (b : option bool) : bool := default false b.
Definition truthy_text (s : option string) : bool :=
  match s with Some t => Js.truthy t | None => false end.

Definition isListenerReady (r : DRemailer) : bool := smtpServer r.

Definition isSenderReady (r : DRemailer) : bool :=
  if negb (truthy_text (senderSmtpHost (config r))) then false
  else match mailSender r with
       | None => false
       | Some ms => DStatus.ready (sender_status ms)
       end.

Definition getSummary : M DRemailerStatus :=
  r ← get_self;
  let c := config r in
  let l :=
    ListenerStatus.mk (isListenerReady r) (negb (listenerPaused r))
      (if truthy_text (listenerAddress c) then default "" (listenerAddress c) else "")
      (default 0 (listenerPort c))
      (if truthy_flag (listenerLmtp c) then "LMTP" else "SMTP")
      (truthy_flag (listenerSecure c)) in
  let s :=
    SenderStatus.mk (isSenderReady r) (negb (senderPaused r))
      (if truthy_text (senderSmtpHost c) then default "" (senderSmtpHost c) else "")
      (default 0 (senderSmtpPort c))
      (if truthy_flag (senderLmtp c) then "LMTP" else "SMTP")
      (truthy_flag (senderSmtpSecure c))
      (truthy_flag (senderIgnoreInvalidCert c)) in
  let t :=
    TimerStatus.mk (if timerIntervalMs r <=? 0 then true else false)
      (inject_Z (timerIntervalMs r) / 1000)%Q in
  storageReady ← isStorageReady true;
  mret (mkDRemailerStatus l s (StorageStatus.mk storageReady) t).

(** [showSummary] (dremailer.ts, lines 1035-1043); the rendering of the
    snapshot by the logger is not modelled. *)
Definition showSummary : M unit :=
  _ ← getSummary;
  log_d "Summary";;
  r ← get_self;
  (if listenerPaused r then log_w "Listener:          PAUSED";; mret tt else mret tt);;
  (if senderPaused r then log_w "Sender:            PAUSED";; mret tt else mret tt).

(** ** Forwarding and ingress

    The parser of [mailparser] and the upstream transport of [nodemailer]
    are external: the methods are parametrised by what they answer. *)

(** What the promise of [forwardOne] settles to. *)
Inductive ForwardOneResult :=
  | FoFalse
  | FoUndefined
  | FoInfo (info : SentInfo)
  | FoError (err : Error).

Section Relay.

(** [simpleParser(emailData)]: rejected, fulfilled with nothing, or
    fulfilled with the parsed message. *)
Variable simpleParser : list Byte.byte -> Error + option ParsedMail.

(** [transporter.sendMail(mailOptions)] *)
Variable sendMail : MailOptions -> Error + SentInfo.

(** [forwardEml] (dmailsender.ts, lines 125-196).  A [catch] handler that
    rejects is followed by the [then] handler run on [undefined]: its
    logger calls still happen, its own rejection comes too late. *)
Definition forwardEml (ms : DMailSender) (emailFilename : Path)
  : M (Error + SentInfo) :=
  if negb (DStatus.ready (sender_status ms)) then
    reject_logged (DStatus.message (sender_status ms))
  else
    fs ← get_disk;
    match Fs.lookup_file emailFilename fs with
    | None => reject_logged (path_str emailFilename +:+ " does not exist")
    | Some file =>
        if isDirectory file then
          reject_logged (path_str emailFilename +:+ " is not a file")
        else if negb (transporter ms) then
          reject_logged "this.transporter is not ready"
        else
          match simpleParser (data file) with
          | inl err =>
              log_d "parsedEmail=";;
              log_e "simpleParser result empty";;
              mret (inl err)
          | inr None =>
              log_d "parsedEmail=";;
              reject_logged "simpleParser result empty"
          | inr (Some parsedEmail) =>
              log_d "parsedEmail=";;
              match from parsedEmail with
              | None => reject_logged "eml not contains <from> address"
              | Some parsedFrom =>
                  let to := convertAddress (to parsedEmail) in
                  match to with
                  | Some recipients =>
                      if recipients_truthy to then
                        log_d "from=";; log_d "to=";; log_d "subject=";;
                        log_d (Js.inspected "text="
                                 (if truthy_text (body_text parsedEmail)
                                  then "PRESENT" else "NO TEXT"));;
                        log_d (Js.inspected "html="
                                 (if truthy_text (body_html parsedEmail)
                                  then "PRESENT" else "NO HTML"));;
                        log_d ("attachments=" +:+
                               pretty (length (attachments parsedEmail)));;
                        let mailOptions :=
                          mkMailOptions (text parsedFrom) recipients
                            (subject parsedEmail) (body_text parsedEmail)
                            (if truthy_text (body_html parsedEmail)
                             then body_html parsedEmail else None)
                            (attachments parsedEmail) in
                        emit (SendMail mailOptions);;
                        mret (sendMail mailOptions)
                      else reject_logged "eml not contains <to> address"
                  | None => reject_logged "eml not contains <to> address"
                  end
              end
          end
    end.

(** [forward] (dremailer.ts, lines 649-669). *)
Definition forward (emlFilename : Path) : M (Error + SentInfo) :=
  emit (OnForwarding (path_str emlFilename));;
  r ← get_self;
  match mailSender r with
  | None => reject_logged "Cannot forward, <mailSender> is not ready"
  | Some ms =>
      res ← forwardEml ms emlFilename;
      match res with
      | inr info =>
          log_d ("Forwarded " +:+ path_str emlFilename);;
          emit (OnForwarded (Js.path_basename (dirname emlFilename) +:+ "/" +:+
                             basename emlFilename));;
          mret (inr info)
      | inl err =>
          log_e (Js.inspected "Not Forwarded " (message err));;
          moveToError emlFilename err;;
          emit (OnError err);;
          mret (inl err)
      end
  end.

(** [fsu.unlink(emlFilename)] with the handler of its rejection. *)
Definition unlink_or (onFail : Error -> M unit) (emlFilename : Path) : M unit :=
  emit (FsUnlink emlFilename);;
  fs ← get_disk;
  match Fs.unlink emlFilename fs with
  | inr fs' => put_disk fs'
  | inl err => onFail err
  end.

(** [forwardOne] (dremailer.ts, lines 602-647). *)
Definition forwardOne : M ForwardOneResult :=
  r ← get_self;
  match emlParkingDir r with
  | None =>
      modify_self (set_emlParkingQueue []);;
      let err := mkError "Parking storage folder not available" in
      msg ← log_e (message err);
      modify_self (set_status (DStatus.mk false msg));;
      emit (OnError err);;
      mret FoFalse
  | Some parkingDir =>
      (* [this.emlParkingQueue.shift()] *)
      let emlName := head (emlParkingQueue r) in
      modify_self (set_emlParkingQueue (tail (emlParkingQueue r)));;
      match emlName with
      | Some emlName =>
          if Js.truthy emlName then
            let emlFilename := mkPath parkingDir emlName in
            log_d ("Forwarding " +:+ emlName);;
            res ← forward emlFilename;
            match res with
            | inr info =>
                (if truthy_flag (backupEnabled (config r)) then
                   log_d ("Backing up " +:+ emlName);;
                   _ ← moveToParkingBackup emlFilename; mret tt
                 else
                   log_d ("Deleting " +:+ emlName);;
                   unlink_or (fun err => emit (OnError err)) emlFilename);;
                mret (FoInfo info)
            | inl err =>
                (* Re-push to the end of queue *)
                modify_self
                  (fun r => set_emlParkingQueue (emlParkingQueue r ++ [emlName]) r);;
                mret (FoError err)
            end
          else mret FoUndefined
      | None => mret FoUndefined
      end
  end.

(** The body of the interval timer armed by [startSenderTimer]
    (dremailer.ts, lines 922-931). *)
Definition tick : M unit :=
  r ← get_self;
  if negb (senderPaused r) then
    if emlScanning r && bool_decide (0 < length (emlDirectQueue r))%nat then
      log_w "Storage scanning in progress, wait";; mret tt
    else _ ← forwardOne; mret tt
  else mret tt.

(** The rejection of a session before anything is stored. *)
Definition reject_session (stream : list Byte.byte)
    (session : SMTPServerSession) (err : Error) : M unit :=
  emit (PipeNull session);;
  emit (Callback (Some err));;
  emit (OnReject session err).

(** [onData] (dremailer.ts, lines 764-853). *)
Definition onData (now : Date) (stream : list Byte.byte)
    (session : SMTPServerSession) : M unit :=
  emit (OnReceiving session);;
  r ← get_self;
  if negb (DStatus.ready (status r)) then
    reject_session stream session
      (mkError ("Remailer not ready: " +:+ DStatus.message (status r)))
  else if listenerPaused r then
    reject_session stream session (mkError "Remailer paused, please try later")
  else if 0 <? timerIntervalMs r then
    (* Store email in parking folder for delayed delivery *)
    match emlParkingDir r with
    | None =>
        reject_session stream session
          (mkError "Parking storage folder not available")
    | Some parkingDir =>
        saved ← saveEmailToDisk now stream session parkingDir;
        match saved with
        | inr emlName =>
            modify_self
              (fun r => set_emlParkingQueue (emlParkingQueue r ++ [emlName]) r);;
            emit (Callback None)
        | inl err =>
            emit (Callback (Some err));;
            emit (OnReject session err)
        end
    end
  else
    (* Timer disabled, delivery now *)
    match emlDirectDir r with
    | None =>
        reject_session stream session
          (mkError "Direct storage folder not available")
    | Some directDir =>
        saved ← saveEmailToDisk now stream session directDir;
        emlName ← match saved with
                  | inr emlName => mret (Some emlName)
                  | inl err =>
                      emit (Callback (Some err));;
                      emit (OnReject session err);;
                      mret None
                  end;
        r' ← get_self;
        match emlName with
        | Some emlName =>
            if Js.truthy emlName && negb (senderPaused r') then
              let emlFilename := mkPath directDir emlName in
              res ← forward emlFilename;
              match res with
              | inr info =>
                  emit (Callback None);;
                  if truthy_flag (backupEnabled (config r')) then
                    log_d ("Backing up " +:+ emlName);;
                    _ ← moveToDirectBackup emlFilename; mret tt
                  else
                    log_d ("Deleting " +:+ emlName);;
                    unlink_or
                      (fun err =>
                         let error :=
                           mkError ("Cannot delete file: " +:+
                                    path_str emlFilename +:+ " " +:+ message err) in
                         log_e (message err);;
                         emit (OnError error)) emlFilename
              | inl err =>
                  emit (Callback (Some err));;
                  emit (OnReject session err)
              end
            else mret tt
        | None => mret tt
        end
    end.

End Relay.

(** ** The control API *)

Inductive Method := GET | POST.

Record Request := mkRequest {
  method : Method;
  url : string;
  query : gmap string string;
  body : gmap string string
}.

Inductive Payload :=
  | JsonText (s : string)
  | JsonMessage (message : string)        (* [{ message: ... }] *)
  | JsonStatus (s : DRemailerStatus)
  | JsonStorage (s : DRemailerStorage)
  | NotFound.

Record Response := mkResponse { code : Z; payload : Payload }.

(** [v == "true" ? true : false] *)
Definition is_true_text (v : string) : bool := String.eqb v "true".

(** A parameter that is present and truthy. *)
Definition param (params : gmap string string) (key : string) : option string :=
  match params !! key with
  | Some v => if Js.truthy v then Some v else None
  | None => None
  end.

(** The application set up by [startRemailerControlApi]
    (routes.ts, lines 17-66), answering one request.  The parameter
    [apiKey] is received and never read. *)
Definition startRemailerControlApi (port : Z) (apiKey : string) (req : Request)
  : M Response :=
  match method req with
  | POST =>
      if String.eqb (url req) "/api/remailer/control" then
        log_d "Remailer control request: ";;
        doneSender ←
          match param (body req) "suspend_sender" with
          | Some v =>
              log_d "Requerst: suspend SENDER";;
              suspendSender (is_true_text v);;
              mret true
          | None => mret false
          end;
        doneListener ←
          match param (body req) "suspend_listener" with
          | Some v =>
              log_d "Request: suspend LISTENER";;
              suspendListener (is_true_text v);;
              mret true
          | None => mret false
          end;
        if doneSender || doneListener then
          showSummary;;
          mret (mkResponse 200 (JsonText "done"))
        else
          log_d "req.body";;
          log_e "Request unknown";;
          mret (mkResponse 400 (JsonText "Bad Request"))
      else mret (mkResponse 404 NotFound)
  | GET =>
      if String.eqb (url req) "/api/remailer/query/status" then
        log_d "Remailer status request";;
        summary ← getSummary;
        mret (mkResponse 200 (JsonStatus summary))
      else if String.eqb (url req) "/api/remailer/query/storage" then
        log_d "Remailer storage list request";;
        scanned ← scanStorageAsync;
        match scanned with
        | inr result => mret (mkResponse 200 (JsonStorage result))
        | inl err => mret (mkResponse 400 (JsonText (message err)))
        end
      else mret (mkResponse 404 NotFound)
  end.

(** [checkApiKey] of the first bootstrap (main.ts, lines 91-101):
    [Some] is the response that ends the request, [None] is [next()]. *)
Definition checkApiKey (apiKey : string) (req : Request) : option Response :=
  match query req !! "api_key" with
  | Some submittedAPIKey =>
      if negb (Js.truthy submittedAPIKey) ||
         negb (String.eqb (Js.trim submittedAPIKey) apiKey)
      then Some (mkResponse 401 (JsonMessage "Access denied"))
      else None
  | None => Some (mkResponse 401 (JsonMessage "Access denied"))
  end.

(** The application set up by [startAdminAPI] (main.ts, lines 90-121):
    the key check is installed before its only route. *)
Definition startAdminAPI (port : Z) (apiKey : string) (req : Request)
  : M Response :=
  match checkApiKey apiKey req with
  | Some denied => mret denied
  | None =>
      match method req with
      | POST =>
          if String.eqb (url req) "/api/remailer/control" then
            match param (query req) "suspend_sender" with
            | Some v => suspendSender (is_true_text v)
            | None => mret tt
            end;;
            match param (query req) "suspend_listener" with
            | Some v => suspendListener (is_true_text v)
            | None => mret tt
            end;;
            showSummary;;
            mret (mkResponse 200 (JsonText "done"))
          else mret (mkResponse 404 NotFound)
      | GET => mret (mkResponse 404 NotFound)
      end
  end.

(** ** Vocabulary of the properties *)

(** The events appended by a run that started in [before]. *)
Definition events_since (before after : Machine) : list Event :=
  drop (length (trace before)) (trace after).

(** What the specification asks of a pause command [op] on the flag
    [flag]: no event when the flag already has the requested value. *)
Definition silent_unless_changed (op : bool -> M unit)
    (flag : DRemailer -> bool) (b : bool) (m : Machine) : Prop :=
  flag (self m) = b -> events_since m (op b m).2 = [].

(** The completion callback of the DATA phase, with or without error. *)
Definition is_callback (e : Event) : bool :=
  match e with Callback _ => true | _ => false end.

(** A request to the file system. *)
Definition is_fs_request (e : Event) : bool :=
  match e with FsWrite _ | FsRename _ _ | FsUnlink _ => true | _ => false end.

(** A submission to the upstream transport. *)
Definition is_submission (e : Event) : bool :=
  match e with SendMail _ => true | _ => false end.

(** What the specification says of a delivery from parking that failed
    with [err]: the result is the error, the name is the new tail of the
    parking queue, and the only request to the file system is the rename
    of [src] to [dst] (no move to a backup directory, no unlink). *)
Definition retried_to_tail (src dst : Path) (rest : list string) (err : Error)
    (before : Machine) (out : ForwardOneResult * Machine) : Prop :=
  out.1 = FoError err /\
  emlParkingQueue (self out.2) = rest ++ [basename src] /\
  List.filter is_fs_request (events_since before out.2) = [FsRename src dst].

(** The names a scan keeps, in plain words: the entries that are not
    directories and whose name is [eml] or ends with [.eml], in the order
    of the listing. *)
Definition has_eml_name (n : string) : bool :=
  String.eqb n "eml" || Js.ends_with ".eml" n.

Definition listed (l : list Dirent) : list string :=
  map name
    (List.filter (fun item => negb (isDirectory item) && has_eml_name (name item)) l).


(** ** Sample environments, used to run the definitions *)

Module Sample.

Definition dirs : EmlDirs :=
  mkDirs (Some "/spool/eml-parking") (Some "/spool/eml-direct")
    (Some "/spool/eml-error") (Some "/spool/eml-parking-backup")
    (Some "/spool/eml-direct-backup").

Definition config : DRemailerConfig :=
  mkConfig (Some "0.0.0.0") (Some 2524) (Some false) None
    (Some "smtp.example.org") (Some 587) (Some false) None None (Some true).

Definition mailSender : DMailSender :=
  mkDMailSender true (DStatus.mk true "Init SUCCESS").

(** An initialised instance in timed mode, one message every two seconds. *)
Definition remailer : DRemailer :=
  mkDRemailer config true (Some mailSender) 2000
    (mkStorage [] [] [] [] []) false dirs
    (DStatus.mk true "Init SUCCESS") true false false.

Definition file (n : string) : Dirent := mkDirent n false [].

Definition disk_of (parking : list Dirent) : FS :=
  <["/spool/eml-parking" := parking]>
    (<["/spool/eml-direct" := []]>
       (<["/spool/eml-error" := []]>
          (<["/spool/eml-parking-backup" := []]>
             (<["/spool/eml-direct-backup" := []]> ∅)))).

Definition machine (r : DRemailer) (parking : list Dirent) : Machine :=
  mkMachine r (disk_of parking) [].

Definition session : SMTPServerSession :=
  mkSession "abc" (Some (mkAddress "a.b@x.org"))
    (Some [mkAddress "u@v.it"; mkAddress "w@z.com"]).

Definition now : Date := mkDate 2024 1 2 3 4 5 678.

Definition sender_of (t : string) : AddressObject :=
  mkAddressObject [mkEmailAddress t ""] t.

Definition mail (recipients : option AddressField) : ParsedMail :=
  mkParsedMail (Some (sender_of "a.b@x.org")) recipients
    (Some "hello") (Some "text") None [].

(** A parser that finds the same message in every file. *)
Definition parser (m : ParsedMail) (_ : list Byte.byte)
  : Error + option ParsedMail := inr (Some m).

Definition accepting (_ : MailOptions) : Error + SentInfo :=
  inr (mkSentInfo "250 2.0.0 OK").

Definition refused : Error := mkError "550 5.7.1 relaying denied".

Definition refusing (_ : MailOptions) : Error + SentInfo := inl refused.

End Sample.

(** ** The life cycle of the upstream sender ([dmailsender.ts]) *)

Module DMailSenderConfig.
Record t := mk {
  smtpHost : option string;
  smtpPort : option Z;
  secure : option bool;
  lmtp : option bool;
  ignoreInvalidCert : option bool
}.
End DMailSenderConfig.

Module Sender.

(** A sender as its constructor leaves it (dmailsender.ts, lines 52-69). *)
Definition created : DMailSender :=
  mkDMailSender false
    (DStatus.mk false "Need to call init() before use this class").

(** [init] (dmailsender.ts, lines 86-105): without a host the transporter
    is left as it was. *)
Definition init (config : DMailSenderConfig.t) (ms : DMailSender) : M DMailSender :=
  log_d "DMailSender.init()";;
  if negb (truthy_text (DMailSenderConfig.smtpHost config)) then
    mret (mkDMailSender (transporter ms)
            (DStatus.mk false "no <smtpHost> set in config"))
  else mret (mkDMailSender true (DStatus.mk true "Init SUCCESS")).

(** [isReady] (dmailsender.ts, lines 107-109). *)
Definition isReady (ms : DMailSender) : bool := DStatus.ready (sender_status ms).

(** [close] (dmailsender.ts, lines 266-271): the transporter is dropped,
    the status is not touched.  What the transport does when it is closed
    is outside the model. *)
Definition close (ms : DMailSender) : DMailSender :=
  mkDMailSender false (sender_status ms).

Section Transport.

Variable transportSendMail : MailOptions -> Error + SentInfo.

(** [sendMail] (dmailsender.ts, lines 111-116):
    [this.transporter?.sendMail(message)] is [undefined] without a
    transporter. *)
Definition sendMail (ms : DMailSender) (message : MailOptions)
  : M (Error + option SentInfo) :=
  if negb (DStatus.ready (sender_status ms)) then
    reject_logged (DStatus.message (sender_status ms))
  else if transporter ms then
    emit (SendMail message);;
    mret (match transportSendMail message with
          | inl err => inl err
          | inr info => inr (Some info)
          end)
  else mret (inr None).

End Transport.

End Sender.

(** ** Further vocabulary *)

(** The events by which a session is answered: the body sent to the null
    sink, the completion callback, the reject hook. *)
Definition is_answer (e : Event) : bool :=
  match e with
  | PipeNull _ | Callback _ | OnReject _ _ => true
  | _ => false
  end.

(** A directory field that is defined and names a directory of the disk. *)
Definition dir_present (fs : FS) (d : option string) : bool :=
  match d with Some p => Fs.existsSync p fs | None => false end.

(** The five directory fields are defined and on the disk. *)
Definition storage_present (fs : FS) (d : EmlDirs) : bool :=
  dir_present fs (parkingDir d) && dir_present fs (directDir d) &&
  dir_present fs (errorDir d) && dir_present fs (parkingBackupDir d) &&
  dir_present fs (directBackupDir d).

(** The directory in which [onData] stores a message: parking with the
    timer, direct without. *)
Definition ingress_dir (r : DRemailer) : option string :=
  if 0 <? timerIntervalMs r then emlParkingDir r else emlDirectDir r.

(** A string made of white space only. *)
Fixpoint all_space (s : string) : bool :=
  match s with
  | EmptyString => true
  | String c r => Ascii.is_space c && all_space r
  end.

(** The disk after [moveToError]: the rename took effect or nothing
    changed. *)
Definition error_disk (errorDir : option string) (f : Path) (fs : FS) : FS :=
  match errorDir with
  | Some dir =>
      match Fs.rename f (mkPath dir (basename f)) fs with
      | inr fs' => fs'
      | inl _ => fs
      end
  | None => fs
  end.

(** The disk after a successful delivery of [f]: moved to the backup
    directory when backups are enabled, unlinked otherwise. *)
Definition delivered_disk (backup : bool) (backupDir : option string)
    (f : Path) (fs : FS) : FS :=
  if backup then error_disk backupDir f fs
  else match Fs.unlink f fs with
       | inr fs' => fs'
       | inl _ => fs
       end.

(** The requests to the file system of that delivery. *)
Definition delivered_requests (backup : bool) (backupDir : option string)
    (f : Path) : list Event :=
  if backup then
    match backupDir with
    | Some dir => [FsRename f (mkPath dir (basename f))]
    | None => []
    end
  else [FsUnlink f].

(** [n] firings of the interval timer, one after the other. *)
Fixpoint ticks (simpleParser : list Byte.byte -> Error + option ParsedMail)
    (sendMail : MailOptions -> Error + SentInfo) (n : nat) : M unit :=
  match n with
  | O => mret tt
  | S k => tick simpleParser sendMail;; ticks simpleParser sendMail k
  end.

(** What [isStorageReady(true)] keeps of a directory field. *)
Definition kept (fs : FS) (d : option string) : option string :=
  match d with
  | Some p => if Fs.existsSync p fs then Some p else None
  | None => None
  end.

(** The five directory fields are defined. *)
Definition all_defined (d : EmlDirs) : bool :=
  match parkingDir d, directDir d, errorDir d, parkingBackupDir d,
        directBackupDir d with
  | Some _, Some _, Some _, Some _, Some _ => true
  | _, _, _, _, _ => false
  end.

(** The directory fields after [isStorageReady(true)]: checked only when
    all five are defined. *)
Definition checked_dirs (fs : FS) (d : EmlDirs) : EmlDirs :=
  if all_defined d then
    mkDirs (kept fs (parkingDir d)) (kept fs (directDir d))
      (kept fs (errorDir d)) (kept fs (parkingBackupDir d))
      (kept fs (directBackupDir d))
  else d.

(** No character of the string is white space. *)
Fixpoint no_space (s : string) : bool :=
  match s with
  | EmptyString => true
  | String c r => negb (Ascii.is_space c) && no_space r
  end.

(** ** Further sample environments *)

Module Scenario.

(** The sample instance in direct mode: no interval timer. *)
Definition direct : DRemailer :=
  mkDRemailer Sample.config true (Some Sample.mailSender) 0
    (mkStorage [] [] [] [] []) false Sample.dirs
    (DStatus.mk true "Init SUCCESS") true false false.

(** The sample instance with two names in the parking queue, and the disk
    that holds their files. *)
Definition queued : Machine :=
  Sample.machine (set_emlParkingQueue ["a.eml"; "b.eml"] Sample.remailer)
    [Sample.file "a.eml"; Sample.file "b.eml"].

(** The sample instance on a disk without any of its directories. *)
Definition unplugged : Machine := mkMachine Sample.remailer ∅ [].

(** A parser that finds a message to one recipient in every file. *)
Definition letter : list Byte.byte -> Error + option ParsedMail :=
  Sample.parser (Sample.mail (Some (One (Sample.sender_of "u@v.it")))).

Definition receipt : SentInfo := mkSentInfo "250 2.0.0 OK".

(** A request of the control route. *)
Definition control (query body : gmap string string) : Request :=
  mkRequest POST "/api/remailer/control" query body.

Definition hosted : DMailSenderConfig.t :=
  DMailSenderConfig.mk (Some "smtp.example.org") (Some 587) (Some false) None None.

Definition hostless : DMailSenderConfig.t :=
  DMailSenderConfig.mk None (Some 587) (Some false) None None.

End Scenario.

(** * Properties *)

(** ** Running the state monad *)

Lemma run_bind {A B} (c : M A) (k : A -> M B) (m : Machine) :
  (c ≫= k) m = k (c m).1 (c m).2.
Proof. reflexivity. Qed.

Lemma run_ret {A} (a : A) (m : Machine) : (mret a : M A) m = (a, m).
Proof. reflexivity. Qed.

Lemma machine_eta (m : Machine) : mkMachine (self m) (disk m) (trace m) = m.
Proof. by destruct m. Qed.

(** Unfolds the monad and the primitive actions. *)
Ltac run :=
  repeat (unfold mbind, mret, M_bind, M_ret, emit, get_self, modify_self,
            get_disk, put_disk, log_d, log_i, log_w, log_e, log,
            reject_logged in *;
          cbn [fst snd self disk trace negb andb orb] in *).

Lemma events_since_app (m : Machine) (r : DRemailer) (fs : FS) (l : list Event) :
  events_since m (mkMachine r fs (trace m ++ l)) = l.
Proof. unfold events_since; simpl. by rewrite drop_app_length. Qed.

(** ** Runs on the sample environment *)

Example emlFileName_sample :
  emlFileName Sample.now Sample.session
  = "20240102030405678_abc_a-b-x-org_u-v-it-w-z-com.eml".
Proof. vm_compute. reflexivity. Qed.

Example split_dot_pop_samples :
  map Js.split_dot_pop ["a.eml"; "a.b.eml"; "eml"; "a.eml.txt"; "a."; ".eml"]
  = ["eml"; "eml"; "eml"; "txt"; ""; "eml"].
Proof. vm_compute. reflexivity. Qed.

Example trim_sample : Js.trim "  dury " = "dury".
Proof. vm_compute. reflexivity. Qed.

(** Timed mode: a message is stored in parking, queued and acknowledged. *)
Example onData_parking_sample :
  let out :=
    onData (Sample.parser (Sample.mail None)) Sample.accepting Sample.now []
      Sample.session (Sample.machine Sample.remailer []) in
  emlParkingQueue (self out.2)
  = ["20240102030405678_abc_a-b-x-org_u-v-it-w-z-com.eml"] /\
  List.filter is_callback (trace out.2) = [Callback None] /\
  List.filter is_fs_request (trace out.2)
  = [FsWrite (mkPath "/spool/eml-parking"
                "20240102030405678_abc_a-b-x-org_u-v-it-w-z-com.eml")].
Proof. vm_compute. repeat split. Qed.

(** A delivery from parking that succeeds, with backup enabled: the file
    moves to the parking backup directory and leaves the queue. *)
Example forwardOne_success_sample :
  let m :=
    Sample.machine (set_emlParkingQueue ["a.eml"; "b.eml"] Sample.remailer)
      [Sample.file "a.eml"; Sample.file "b.eml"] in
  let out :=
    forwardOne
      (Sample.parser (Sample.mail (Some (One (Sample.sender_of "u@v.it")))))
      Sample.accepting m in
  out.1 = FoInfo (mkSentInfo "250 2.0.0 OK") /\
  emlParkingQueue (self out.2) = ["b.eml"] /\
  List.filter is_fs_request (trace out.2)
  = [FsRename (mkPath "/spool/eml-parking" "a.eml")
       (mkPath "/spool/eml-parking-backup" "a.eml")] /\
  Fs.lookup_file (mkPath "/spool/eml-parking-backup" "a.eml") (disk out.2)
  = Some (Sample.file "a.eml").
Proof. vm_compute. repeat split. Qed.

(** The application of the first bootstrap lets the right key through. *)
Example startAdminAPI_sample :
  let req :=
    mkRequest POST "/api/remailer/control"
      {["api_key" := " dury "; "suspend_listener" := "true"]} ∅ in
  let out := startAdminAPI 16000 "dury" req (Sample.machine Sample.remailer []) in
  out.1 = mkResponse 200 (JsonText "done") /\ listenerPaused (self out.2) = true.
Proof. vm_compute. repeat split. Qed.

(** ** The parking queue: an empty queue (C10) *)

Lemma set_emlParkingQueue_id (r : DRemailer) :
  set_emlParkingQueue (emlParkingQueue r) r = r.
Proof. by destruct r as [? ? ? ? [] ? ? ? ? ? ?]. Qed.

Section ForwardOne.

Variable simpleParser : list Byte.byte -> Error + option ParsedMail.
Variable sendMail : MailOptions -> Error + SentInfo.

(** C10.  With the parking directory available and an empty parking queue,
  [forwardOne] settles to [undefined] and leaves the whole machine as it
  was: the instance (queues, status record, pause flags), the disk, and
  the trace, so that no forward, rename or unlink was requested. *)
Theorem forwardOne_empty_queue (m : Machine) (parkingDir : string) :
emlParkingDir (self m) = Some parkingDir ->
emlParkingQueue (self m) = [] ->
forwardOne simpleParser sendMail m = (FoUndefined, m).
Proof.
intros Hdir Hq. unfold forwardOne. run. rewrite Hdir, Hq. run. simpl.
rewrite <- Hq, set_emlParkingQueue_id. by rewrite machine_eta.
Qed.

End ForwardOne.

Lemma forwardOne_empty_queue_witness :
  forwardOne (Sample.parser (Sample.mail None)) Sample.accepting
    (Sample.machine Sample.remailer [])
  = (FoUndefined, Sample.machine Sample.remailer []).
Proof.
  apply (forwardOne_empty_queue _ _ _ "/spool/eml-parking"); reflexivity.
Defined.

(** ** Admission while the listener is paused (C5) *)

Section Ingress.

Variable simpleParser : list Byte.byte -> Error + option ParsedMail.
Variable sendMail : MailOptions -> Error + SentInfo.

(** C5.  While [listenerPaused] is true, whatever the other flags, a DATA
    phase does exactly this: the receiving hook, the body piped into the
    null sink, the completion callback invoked with an error, the reject
    hook with the same error.  The instance (hence every queue) and the disk
    (hence every directory) are unchanged: nothing is stored or queued. *)
Theorem onData_listener_paused
    (now : Date) (stream : list Byte.byte) (session : SMTPServerSession)
    (m : Machine) :
  listenerPaused (self m) = true ->
  exists err : Error,
    onData simpleParser sendMail now stream session m
    = (tt, mkMachine (self m) (disk m)
             (trace m ++ [OnReceiving session; PipeNull session;
                          Callback (Some err); OnReject session err])).
Proof.
  intros Hpaused. unfold onData, reject_session. run. rewrite Hpaused.
  destruct (DStatus.ready (status (self m))); simpl; eexists;
    by rewrite <- !app_assoc.
Qed.

End Ingress.

Lemma onData_listener_paused_witness :
  exists err : Error,
    onData (Sample.parser (Sample.mail None)) Sample.accepting
      Sample.now [] Sample.session
      (Sample.machine (set_listenerPaused true Sample.remailer) [])
    = (tt, mkMachine (set_listenerPaused true Sample.remailer)
             (Sample.disk_of [])
             [OnReceiving Sample.session; PipeNull Sample.session;
              Callback (Some err); OnReject Sample.session err]).
Proof.
  apply (onData_listener_paused _ _ Sample.now [] Sample.session
           (Sample.machine (set_listenerPaused true Sample.remailer) [])).
  reflexivity.
Defined.

(** ** Pause commands (C9) *)

(** The events of a change of the sender flag and of the listener flag. *)
Lemma suspendSender_run (b : bool) (m : Machine) :
  suspendSender b m
  = (tt, mkMachine (set_senderPaused b (self m)) (disk m)
           (trace m ++ Log DEBUG "Suspending sender..." ::
              (if Bool.eqb (senderPaused (self m)) b then []
               else [if b then Log WARNING "Sender manual PAUSED"
                     else Log INFO "Sender manual UN-PAUSED"]))).
Proof.
  unfold suspendSender. run.
  destruct (Bool.eqb (senderPaused (self m)) b), b; simpl;
    by rewrite <- ?app_assoc.
Qed.

Lemma suspendListener_run (b : bool) (m : Machine) :
  suspendListener b m
  = (tt, mkMachine (set_listenerPaused b (self m)) (disk m)
           (trace m ++
              (if Bool.eqb (listenerPaused (self m)) b then []
               else if b then [Log WARNING "Listener manual PAUSED"]
               else if smtpServer (self m)
                    then [Log INFO "Listener manual UN-PAUSED"] else []))).
Proof.
  unfold suspendListener. run.
  destruct (Bool.eqb (listenerPaused (self m)) b), b, (smtpServer (self m));
    simpl; by rewrite ?app_nil_r.
Qed.

(** The listener command is silent when nothing changes. *)
Lemma suspendListener_silent (b : bool) (m : Machine) :
  silent_unless_changed suspendListener listenerPaused b m.
Proof.
  intros Hb. rewrite suspendListener_run. simpl.
  rewrite events_since_app, Hb. by destruct b.
Qed.

(** The sender command is not: asked to resume a sender that is not
    paused, it still prints its debug line. *)
Lemma suspendSender_not_silent :
  ~ silent_unless_changed suspendSender senderPaused false
      (Sample.machine Sample.remailer []).
Proof. intros H. specialize (H eq_refl). discriminate H. Qed.

(** C9, as the code has it.  For every [b] and every prior state,
    [suspendSender b] only sets [senderPaused] to [b] and [suspendListener b]
    only sets [listenerPaused] to [b]: the rest of the instance and the disk
    are untouched, and a second application changes neither.  The PAUSED
    and UN-PAUSED events are emitted only when the flag changes (for the
    listener's UN-PAUSED, only when the SMTP server exists); the sender
    command also prints the debug line "Suspending sender..." on every
    call. *)
Theorem suspend_flags (b : bool) (m : Machine) :
  let s := (suspendSender b m).2 in
  let l := (suspendListener b m).2 in
  (self s = set_senderPaused b (self m) /\ disk s = disk m /\
   senderPaused (self s) = b /\
   (events_since m s
    = Log DEBUG "Suspending sender..." ::
        (if Bool.eqb (senderPaused (self m)) b then []
         else [if b then Log WARNING "Sender manual PAUSED"
               else Log INFO "Sender manual UN-PAUSED"])) /\
   self (suspendSender b s).2 = self s /\
   disk (suspendSender b s).2 = disk s /\
   events_since s (suspendSender b s).2 = [Log DEBUG "Suspending sender..."])
  /\
  (self l = set_listenerPaused b (self m) /\ disk l = disk m /\
   listenerPaused (self l) = b /\
   (events_since m l
    = if Bool.eqb (listenerPaused (self m)) b then []
      else if b then [Log WARNING "Listener manual PAUSED"]
      else if smtpServer (self m)
           then [Log INFO "Listener manual UN-PAUSED"] else []) /\
   (suspendListener b l).2 = l).
Proof.
  cbv zeta. rewrite !suspendSender_run, !suspendListener_run. simpl.
  rewrite !events_since_app, !eqb_reflx, !app_nil_r.
  repeat split.
Qed.

(** ** The status snapshot (C6) *)

(** C6.  The snapshot of [getSummary] reports [timer.enabled] exactly when
    [timerIntervalMs <= 0], the opposite of what the specification asks;
    [timer.sec] is [timerIntervalMs / 1000]. *)
Theorem getSummary_timer_enabled_inverted (m : Machine) :
  let t := timer (getSummary m).1 in
  (TimerStatus.enabled t = true <-> timerIntervalMs (self m) <= 0) /\
  (TimerStatus.sec t == inject_Z (timerIntervalMs (self m)) / 1000)%Q.
Proof.
  unfold getSummary. run. simpl. split; [|reflexivity].
  destruct (Z.leb_spec (timerIntervalMs (self m)) 0); split; (done || lia).
Qed.

(** With one message every two seconds the timer is reported disabled,
    in direct mode it is reported enabled. *)
Example getSummary_timed_mode :
  TimerStatus.enabled (timer (getSummary (Sample.machine Sample.remailer [])).1)
  = false.
Proof. reflexivity. Qed.

(** ** Direct mode with a paused sender (C1) *)

Section DirectMode.

Variable simpleParser : list Byte.byte -> Error + option ParsedMail.
Variable sendMail : MailOptions -> Error + SentInfo.

(** C1.  In direct mode, ready, listener not paused, direct directory
    available and sender paused, a message whose file can be written is
    streamed into the direct directory and not forwarded; the completion
    callback is then never invoked, neither with nor without an error, so
    the client is not sent its 250. *)
Theorem onData_direct_sender_paused
    (now : Date) (stream : list Byte.byte) (session : SMTPServerSession)
    (m : Machine) (directDir : string) (fs' : FS) :
  DStatus.ready (status (self m)) = true ->
  listenerPaused (self m) = false ->
  timerIntervalMs (self m) = 0 ->
  emlDirectDir (self m) = Some directDir ->
  senderPaused (self m) = true ->
  Fs.write (mkPath directDir (emlFileName now session)) stream (disk m)
  = inr fs' ->
  let out := onData simpleParser sendMail now stream session m in
  out
  = (tt, mkMachine (self m) fs'
           (trace m ++
            [OnReceiving session; OnSaving session;
             Log DEBUG ("Try to save email id: " +:+ id session +:+ " to " +:+
                        directDir);
             FsWrite (mkPath directDir (emlFileName now session));
             Log DEBUG ("email id " +:+ id session +:+ " saved to " +:+ directDir);
             OnSaved session])) /\
  List.filter is_callback (events_since m out.2) = [] /\
  List.filter is_submission (events_since m out.2) = [].
Proof.
  intros Hready Hlistener Htimer Hdir Hsender Hwrite.
  assert (onData simpleParser sendMail now stream session m
          = (tt, mkMachine (self m) fs'
                   (trace m ++
                    [OnReceiving session; OnSaving session;
                     Log DEBUG ("Try to save email id: " +:+ id session +:+
                                " to " +:+ directDir);
                     FsWrite (mkPath directDir (emlFileName now session));
                     Log DEBUG ("email id " +:+ id session +:+ " saved to " +:+
                                directDir);
                     OnSaved session])) ) as Hrun.
  { unfold onData, saveEmailToDisk. run.
    rewrite Hready, Hlistener, Htimer, Hdir. run. simpl.
    rewrite Hwrite. run. simpl. rewrite Hsender, andb_false_r. run.
    by rewrite <- !app_assoc. }
  cbv zeta. rewrite Hrun. simpl. by rewrite events_since_app.
Qed.

End DirectMode.

Lemma onData_direct_sender_paused_witness :
  let m :=
    Sample.machine
      (set_senderPaused true
         (mkDRemailer Sample.config true (Some Sample.mailSender) 0
            (mkStorage [] [] [] [] []) false Sample.dirs
            (DStatus.mk true "Init SUCCESS") true false false)) [] in
  List.filter is_callback
    (events_since m
       (onData (Sample.parser (Sample.mail None)) Sample.accepting
          Sample.now [] Sample.session m).2) = [].
Proof.
  intros m.
  refine (proj1 (proj2
    (onData_direct_sender_paused _ _ Sample.now [] Sample.session m
       "/spool/eml-direct"
       (<["/spool/eml-direct" :=
            [Sample.file (emlFileName Sample.now Sample.session)]]>
          (disk m)) _ _ _ _ _ _)));
    vm_compute; reflexivity.
Defined.

(** ** The control API and its key (C7) *)

(** The application of the first bootstrap does what the specification
    asks: a request whose key is missing, empty or different once trimmed
    is answered 401 and nothing else happens. *)
Lemma startAdminAPI_access_denied
    (port : Z) (apiKey : string) (req : Request) (m : Machine) :
  (forall submitted, query req !! "api_key" = Some submitted ->
     Js.trim submitted <> apiKey \/ submitted = "") ->
  startAdminAPI port apiKey req m
  = (mkResponse 401 (JsonMessage "Access denied"), m).
Proof.
  intros Hkey. unfold startAdminAPI, checkApiKey.
  destruct (query req !! "api_key") as [submitted|] eqn:Hq; [|done].
  destruct (Hkey submitted eq_refl) as [Hne | ->]; [|done].
  destruct (String.eqb_spec (Js.trim submitted) apiKey) as [|_]; [done|].
  by rewrite orb_true_r.
Qed.

(** The application of [routes.ts] never reads the query, hence never the
    key: its answer and its effects are those of the same request sent
    with any other query. *)
Lemma startRemailerControlApi_ignores_query
    (port : Z) (apiKey : string) (req : Request) (q : gmap string string)
    (m : Machine) :
  startRemailerControlApi port apiKey
    (mkRequest (method req) (url req) q (body req)) m
  = startRemailerControlApi port apiKey req m.
Proof. reflexivity. Qed.

(** C7.  Sent to the application of [routes.ts] without any [api_key], a
    control request that the key check would deny is answered 200 "done"
    after pausing the sender, the status request is answered 200 with the
    snapshot, and the storage request runs a rescan: no route is behind
    the key. *)
Theorem control_api_not_gated :
  let m := Sample.machine Sample.remailer [Sample.file "a.eml"] in
  let control :=
    mkRequest POST "/api/remailer/control" ∅ {["suspend_sender" := "true"]} in
  let status := mkRequest GET "/api/remailer/query/status" ∅ ∅ in
  let storage := mkRequest GET "/api/remailer/query/storage" ∅ ∅ in
  checkApiKey "dury" control
  = Some (mkResponse 401 (JsonMessage "Access denied")) /\
  (startRemailerControlApi 16000 "dury" control m).1
  = mkResponse 200 (JsonText "done") /\
  senderPaused (self (startRemailerControlApi 16000 "dury" control m).2) = true /\
  code (startRemailerControlApi 16000 "dury" status m).1 = 200 /\
  (startRemailerControlApi 16000 "dury" storage m).1
  = mkResponse 200 (JsonStorage (mkStorage ["a.eml"] [] [] [] [])) /\
  emlParkingQueue (self (startRemailerControlApi 16000 "dury" storage m).2)
  = ["a.eml"].
Proof. vm_compute. repeat split. Qed.

(** ** Recipients of a forwarded message (C8) *)

Section Recipients.

Variable simpleParser : list Byte.byte -> Error + option ParsedMail.
Variable sendMail : MailOptions -> Error + SentInfo.

(** A file that parses without a [from] address is rejected and nothing is
    submitted. *)
Lemma forwardEml_rejects_missing_from
    (ms : DMailSender) (f : Path) (m : Machine) (file : Dirent)
    (mail : ParsedMail) :
  DStatus.ready (sender_status ms) = true -> transporter ms = true ->
  Fs.lookup_file f (disk m) = Some file -> isDirectory file = false ->
  simpleParser (data file) = inr (Some mail) ->
  from mail = None ->
  let out := forwardEml simpleParser sendMail ms f m in
  out.1 = inl (mkError "eml not contains <from> address") /\
  List.filter is_submission (events_since m out.2) = [].
Proof.
  intros Hready Htr Hfile Hdir Hparse Hfrom. unfold forwardEml. run.
  rewrite Hready; run. rewrite Hfile, Hdir, Htr; run.
  rewrite Hparse; run. rewrite Hfrom; run. split; [done|].
  by rewrite <- app_assoc, events_since_app.
Qed.

(** So is a file without [to], or with a single address object whose text
    is empty. *)
Lemma forwardEml_rejects_missing_to
    (ms : DMailSender) (f : Path) (m : Machine) (file : Dirent)
    (mail : ParsedMail) (parsedFrom : AddressObject) :
  DStatus.ready (sender_status ms) = true -> transporter ms = true ->
  Fs.lookup_file f (disk m) = Some file -> isDirectory file = false ->
  simpleParser (data file) = inr (Some mail) ->
  from mail = Some parsedFrom ->
  to mail = None \/ (exists a, to mail = Some (One a) /\ text a = "") ->
  let out := forwardEml simpleParser sendMail ms f m in
  out.1 = inl (mkError "eml not contains <to> address") /\
  List.filter is_submission (events_since m out.2) = [].
Proof.
  intros Hready Htr Hfile Hdir Hparse Hfrom Hto. unfold forwardEml. run.
  rewrite Hready; run. rewrite Hfile, Hdir, Htr; run.
  rewrite Hparse; run. rewrite Hfrom; run.
  destruct Hto as [-> | (a & -> & Ha)]; simpl; rewrite ?Ha; run; simpl;
    (split; [done|]); by rewrite <- app_assoc, events_since_app.
Qed.

(** C8.  A [to] that is an array of address objects is never rejected: the
    message is submitted with the texts of the array as recipients and the
    answer of the transport is returned.  This holds for the empty array
    and for an array of address objects without any address. *)
Theorem forwardEml_submits_array_recipients
    (ms : DMailSender) (f : Path) (m : Machine) (file : Dirent)
    (mail : ParsedMail) (parsedFrom : AddressObject) (l : list AddressObject) :
  DStatus.ready (sender_status ms) = true -> transporter ms = true ->
  Fs.lookup_file f (disk m) = Some file -> isDirectory file = false ->
  simpleParser (data file) = inr (Some mail) ->
  from mail = Some parsedFrom ->
  to mail = Some (Many l) ->
  let mailOptions :=
    mkMailOptions (text parsedFrom) (RList (map text l)) (subject mail)
      (body_text mail)
      (if truthy_text (body_html mail) then body_html mail else None)
      (attachments mail) in
  let out := forwardEml simpleParser sendMail ms f m in
  out.1 = sendMail mailOptions /\
  List.filter is_submission (events_since m out.2) = [SendMail mailOptions].
Proof.
  intros Hready Htr Hfile Hdir Hparse Hfrom Hto. unfold forwardEml. run.
  rewrite Hready; run. rewrite Hfile, Hdir, Htr; run.
  rewrite Hparse; run. rewrite Hfrom, Hto; run. simpl. split; [done|].
  by rewrite <- !app_assoc, events_since_app.
Qed.

End Recipients.

Lemma forwardEml_submits_array_recipients_witness :
  let m := Sample.machine Sample.remailer [Sample.file "a.eml"] in
  let out :=
    forwardEml (Sample.parser (Sample.mail (Some (Many [])))) Sample.accepting
      Sample.mailSender (mkPath "/spool/eml-parking" "a.eml") m in
  out.1 = inr (mkSentInfo "250 2.0.0 OK") /\
  List.filter is_submission (events_since m out.2)
  = [SendMail (mkMailOptions "a.b@x.org" (RList []) (Some "hello")
                 (Some "text") None [])].
Proof.
  intros m.
  exact (forwardEml_submits_array_recipients
           (Sample.parser (Sample.mail (Some (Many [])))) Sample.accepting
           Sample.mailSender (mkPath "/spool/eml-parking" "a.eml") m
           (Sample.file "a.eml") (Sample.mail (Some (Many [])))
           (Sample.sender_of "a.b@x.org") []
           eq_refl eq_refl eq_refl eq_refl eq_refl eq_refl eq_refl).
Defined.

(** Two empty [To:] headers give an array of two address objects without
    address: the message goes upstream with two empty recipients. *)
Example forwardEml_two_empty_to_headers :
  let m := Sample.machine Sample.remailer [Sample.file "a.eml"] in
  let nobody := mkAddressObject [] "" in
  List.filter is_submission
    (events_since m
       (forwardEml (Sample.parser (Sample.mail (Some (Many [nobody; nobody]))))
          Sample.accepting Sample.mailSender
          (mkPath "/spool/eml-parking" "a.eml") m).2)
  = [SendMail (mkMailOptions "a.b@x.org" (RList [""; ""]) (Some "hello")
                 (Some "text") None [])].
Proof. vm_compute. reflexivity. Qed.

(** ** A failed delivery from parking (C2) *)

(** [find_entry] after [remove_entry], and on a listing extended at its
    end. *)
Lemma find_remove_entry (n : string) (l : list Dirent) :
  Fs.find_entry n (Fs.remove_entry n l) = None.
Proof.
  unfold Fs.find_entry, Fs.remove_entry.
  induction l as [|e l IH]; simpl; [done|].
  destruct (String.eqb (name e) n) eqn:He; simpl; [done|]. by rewrite He.
Qed.

Lemma find_entry_snoc (n : string) (l : list Dirent) (e : Dirent) :
  Fs.find_entry n l = None -> name e = n -> Fs.find_entry n (l ++ [e]) = Some e.
Proof.
  unfold Fs.find_entry. intros Hl He.
  induction l as [|x l IH]; simpl in *.
  - by rewrite He, String.eqb_refl.
  - destruct (String.eqb (name x) n); [done | auto].
Qed.

(** A rename between two directories of the disk moves the entry. *)
Lemma rename_moves (src dst : Path) (fs : FS) (e : Dirent) :
  Fs.lookup_file src fs = Some e ->
  is_Some (fs !! dirname dst) ->
  dirname src <> dirname dst ->
  exists fs',
    Fs.rename src dst fs = inr fs' /\
    Fs.lookup_file src fs' = None /\
    Fs.lookup_file dst fs'
    = Some (mkDirent (basename dst) (isDirectory e) (data e)).
Proof.
  intros Hsrc [ld Hdst] Hne. unfold Fs.rename. rewrite Hsrc, Hdst.
  destruct (decide (src = dst)) as [->|_]; [done|].
  eexists; split; [reflexivity|]. unfold Fs.lookup_file in *.
  destruct (fs !! dirname src) as [ls|] eqn:Hls; [|done]. simpl.
  rewrite lookup_insert_ne, !lookup_insert_eq by done. simpl.
  rewrite lookup_insert_ne, Hdst by done. simpl. split.
  - apply find_remove_entry.
  - apply find_entry_snoc; [apply find_remove_entry | done].
Qed.

Section FailedDelivery.

Variable simpleParser : list Byte.byte -> Error + option ParsedMail.
Variable sendMail : MailOptions -> Error + SentInfo.

(** [forwardEml] only reads the disk and only appends to the trace, without
    any request to the file system; what it settles to depends on the disk
    alone. *)
Lemma forwardEml_run (ms : DMailSender) (f : Path) (m m' : Machine) :
  disk m' = disk m ->
  exists l,
    forwardEml simpleParser sendMail ms f m'
    = ((forwardEml simpleParser sendMail ms f m).1,
       mkMachine (self m') (disk m') (trace m' ++ l)) /\
    List.filter is_fs_request l = [].
Proof.
  destruct m' as [r' fs' t']. simpl. intros ->. unfold forwardEml. run.
  destruct (DStatus.ready (sender_status ms)); run;
    [|by eexists; split; [reflexivity|]].
  destruct (Fs.lookup_file f (disk m)) as [file|]; run;
    [|by eexists; split; [reflexivity|]].
  destruct (isDirectory file); run; [by eexists; split; [reflexivity|]|].
  destruct (transporter ms); run; [|by eexists; split; [reflexivity|]].
  destruct (simpleParser (data file)) as [err|[mail|]]; run;
    [by eexists; split; [rewrite <- !app_assoc; reflexivity|]| |
     by eexists; split; [rewrite <- !app_assoc; reflexivity|]].
  destruct (from mail) as [parsedFrom|]; run;
    [|by eexists; split; [rewrite <- !app_assoc; reflexivity|]].
  destruct (to mail) as [[a|l]|]; simpl; run;
    [destruct (Js.truthy (text a)); run| |];
    by eexists; split; [rewrite <- !app_assoc; reflexivity|].
Qed.

(** [moveToError] with the error directory available: one rename is
    requested; its failure is logged and reported. *)
Lemma moveToError_run (f : Path) (err : Error) (m : Machine) (errorDir : string) :
  emlErrorDir (self m) = Some errorDir ->
  let dst := mkPath errorDir (basename f) in
  exists l,
    moveToError f err m
    = (tt, mkMachine (self m)
             (match Fs.rename f dst (disk m) with
              | inr fs' => fs'
              | inl _ => disk m
              end)
             (trace m ++ l)) /\
    List.filter is_fs_request l = [FsRename f dst].
Proof.
  intros Herr dst. unfold moveToError. run. rewrite Herr. run. fold dst.
  destruct (Fs.rename f dst (disk m)); run;
    by eexists; split; [rewrite <- ?app_assoc; reflexivity|].
Qed.

(** [forward] when the submission by the sender fails. *)
Lemma forward_failed
    (f : Path) (m m' : Machine) (ms : DMailSender) (err : Error)
    (errorDir : string) :
  mailSender (self m') = Some ms ->
  emlErrorDir (self m') = Some errorDir ->
  disk m' = disk m ->
  (forwardEml simpleParser sendMail ms f m).1 = inl err ->
  let dst := mkPath errorDir (basename f) in
  exists l,
    forward simpleParser sendMail f m'
    = (inl err,
       mkMachine (self m')
         (match Fs.rename f dst (disk m) with
          | inr fs' => fs'
          | inl _ => disk m
          end)
         (trace m' ++ l)) /\
    List.filter is_fs_request l = [FsRename f dst].
Proof.
  intros Hsender Herr Hdisk Hfail dst.
  set (m1 := mkMachine (self m') (disk m')
               (trace m' ++ [OnForwarding (path_str f)])).
  destruct (forwardEml_run ms f m m1 Hdisk) as (l & Hrun & Hl).
  rewrite Hfail in Hrun. cbn [self disk trace m1] in Hrun.
  set (m2 := mkMachine (self m') (disk m')
               ((trace m' ++ [OnForwarding (path_str f)]) ++ l ++
                [Log ERROR (Js.inspected "Not Forwarded " (message err))])).
  destruct (moveToError_run f err m2 errorDir Herr) as (l2 & Hmove & Hl2).
  cbn [self disk trace m2] in Hmove. rewrite Hdisk in Hmove.
  unfold forward. run. rewrite Hsender. run. fold m1. rewrite Hrun. run.
  rewrite <- (app_assoc _ l). fold m2. rewrite Hmove. run.
  eexists. split; [rewrite <- !app_assoc; reflexivity|].
  rewrite !List.filter_app, Hl, Hl2. reflexivity.
Qed.

(** C2, as the code has it.  Let the parking and the error directory be
    available and the sender exist, and let the submission of the head
    [emlName] of the parking queue by the sender fail with [err].  Then
    [forwardOne] settles to [err], [emlName] is the new tail of the parking
    queue, and the only request to the file system is the rename of the
    file from the parking directory to the error directory: no move to a
    backup directory and no unlink.  The rename takes effect when it can:
    a file present in parking, with the error directory on the disk, is in
    the error directory afterwards and no longer in parking. *)
Theorem forwardOne_failed_delivery
    (m : Machine) (parkingDir errorDir emlName : string) (rest : list string)
    (ms : DMailSender) (err : Error) :
  emlParkingDir (self m) = Some parkingDir ->
  emlErrorDir (self m) = Some errorDir ->
  emlParkingQueue (self m) = emlName :: rest ->
  emlName <> "" ->
  mailSender (self m) = Some ms ->
  (forwardEml simpleParser sendMail ms (mkPath parkingDir emlName) m).1
  = inl err ->
  let src := mkPath parkingDir emlName in
  let dst := mkPath errorDir emlName in
  let out := forwardOne simpleParser sendMail m in
  retried_to_tail src dst rest err m out /\
  self out.2 = set_emlParkingQueue (rest ++ [emlName]) (self m) /\
  disk out.2
  = match Fs.rename src dst (disk m) with
    | inr fs' => fs'
    | inl _ => disk m
    end /\
  (forall file,
     Fs.lookup_file src (disk m) = Some file ->
     is_Some (disk m !! errorDir) -> parkingDir <> errorDir ->
     Fs.lookup_file src (disk out.2) = None /\
     Fs.lookup_file dst (disk out.2)
     = Some (mkDirent emlName (isDirectory file) (data file))).
Proof.
  intros Hpark Herr Hq Hname Hsender Hfail src dst out.
  change (mkPath parkingDir emlName) with src in Hfail.
  set (m1 := mkMachine (set_emlParkingQueue rest (self m)) (disk m)
               (trace m ++ [Log DEBUG ("Forwarding " +:+ emlName)])).
  destruct (forward_failed src m m1 ms err errorDir) as (l & Hrun & Hl);
    [by destruct (self m) | by destruct (self m) | done | done |].
  change (mkPath errorDir (basename src)) with dst in Hrun, Hl.
  assert (exists l',
    out = (FoError err,
           mkMachine (set_emlParkingQueue (rest ++ [emlName]) (self m))
             (match Fs.rename src dst (disk m) with
              | inr fs' => fs'
              | inl _ => disk m
              end)
             (trace m ++ l')) /\
    List.filter is_fs_request l' = [FsRename src dst]) as (l' & Hout & Hl').
  { subst out. unfold forwardOne. run.
    rewrite Hpark, Hq. cbn [head tail]. run.
    assert (Js.truthy emlName = true) as -> by by destruct emlName.
    run. fold src. fold m1. rewrite Hrun. run.
    subst m1. cbn [self trace]. rewrite <- app_assoc.
    eexists. split;
      [f_equal; f_equal; by destruct (self m) as [? ? ? ? [] ? ? ? ? ? ?]|].
    rewrite List.filter_app, Hl. reflexivity. }
  rewrite Hout. unfold retried_to_tail. cbn [fst snd self disk trace].
  rewrite events_since_app.
  split; [split; [done | split; [|done]] | split; [done | split; [done|]]].
  - by destruct (self m) as [? ? ? ? [] ? ? ? ? ? ?].
  - intros file Hfile Hdir Hne.
    destruct (rename_moves src dst (disk m) file) as (fs' & -> & ? & ?); done.
Qed.

End FailedDelivery.

Lemma forwardOne_failed_delivery_witness :
  let m :=
    Sample.machine (set_emlParkingQueue ["a.eml"; "b.eml"] Sample.remailer)
      [Sample.file "a.eml"; Sample.file "b.eml"] in
  retried_to_tail (mkPath "/spool/eml-parking" "a.eml")
    (mkPath "/spool/eml-error" "a.eml") ["b.eml"] Sample.refused m
    (forwardOne
       (Sample.parser (Sample.mail (Some (One (Sample.sender_of "u@v.it")))))
       Sample.refusing m).
Proof.
  intros m.
  refine (proj1
    (forwardOne_failed_delivery
       (Sample.parser (Sample.mail (Some (One (Sample.sender_of "u@v.it")))))
       Sample.refusing m "/spool/eml-parking" "/spool/eml-error" "a.eml"
       ["b.eml"] Sample.mailSender Sample.refused _ _ _ _ _ _));
    try reflexivity.
  discriminate.
Defined.

(** Without an error directory the same failed delivery requests no rename
    at all: the name goes back to the tail of the queue and the file stays
    in the parking directory. *)
Lemma forwardOne_failure_without_error_dir :
  let r :=
    set_dirs
      (mkDirs (Some "/spool/eml-parking") (Some "/spool/eml-direct") None
         (Some "/spool/eml-parking-backup") (Some "/spool/eml-direct-backup"))
      (set_emlParkingQueue ["a.eml"; "b.eml"] Sample.remailer) in
  let m := Sample.machine r [Sample.file "a.eml"; Sample.file "b.eml"] in
  let src := mkPath "/spool/eml-parking" "a.eml" in
  let out :=
    forwardOne
      (Sample.parser (Sample.mail (Some (One (Sample.sender_of "u@v.it")))))
      Sample.refusing m in
  out.1 = FoError Sample.refused /\
  Fs.lookup_file src (disk out.2) = Some (Sample.file "a.eml") /\
  forall dst, ~ retried_to_tail src dst ["b.eml"] Sample.refused m out.
Proof.
  cbv zeta. split; [by vm_compute|]. split; [by vm_compute|].
  intros dst (_ & _ & Hrename). vm_compute in Hrename. discriminate Hrename.
Qed.

(** ** Rescan of the storage (C3) *)

Lemma rev_app_app (a b c : string) :
  String.rev_app a b +:+ c = String.rev_app a (b +:+ c).
Proof.
  revert b. induction a as [|x a IH]; intros b; simpl; [done|].
  by rewrite IH.
Qed.

(** Reading a string that has no separator yields the whole string. *)
Lemma last_segment_no_sep (sep : ascii) (s cur : string) :
  Js.has_char sep s = false ->
  Js.last_segment_go sep cur s = String.rev cur +:+ s.
Proof.
  revert cur. induction s as [|c s IH]; intros cur Hno; simpl in *.
  - unfold String.rev. by rewrite rev_app_app.
  - apply orb_false_iff in Hno as [Hc Hs].
    rewrite Ascii.eqb_sym, Hc, IH by done.
    unfold String.rev; simpl. by rewrite !rev_app_app.
Qed.

(** Everything up to a separator is forgotten. *)
Lemma last_segment_after_sep (sep : ascii) (a t cur : string) :
  Js.last_segment_go sep cur (a +:+ String sep t)
  = Js.last_segment_go sep "" t.
Proof.
  revert cur. induction a as [|c a IH]; intros cur; simpl.
  - by rewrite Ascii.eqb_refl.
  - destruct (Ascii.eqb c sep); apply IH.
Qed.

(** The result is the string itself or what follows its last separator. *)
Lemma last_segment_inv (sep : ascii) (s cur : string) :
  (Js.has_char sep s = false /\
   Js.last_segment_go sep cur s = String.rev cur +:+ s) \/
  (exists a t, s = a +:+ String sep t /\ Js.has_char sep t = false /\
               Js.last_segment_go sep cur s = t).
Proof.
  revert cur. induction s as [|c s IH]; intros cur.
  - left. split; [done|]. by apply last_segment_no_sep.
  - simpl. destruct (Ascii.eqb c sep) eqn:Hc.
    + apply Ascii.eqb_eq in Hc as ->. right.
      destruct (IH "") as [[Hno Hgo] | (a & t & -> & Hno & Hgo)].
      * exists "", s. by rewrite Hgo.
      * exists (String sep a), t. by rewrite Hgo.
    + destruct (IH (String c cur)) as [[Hno Hgo] | (a & t & -> & Hno & Hgo)].
      * left. rewrite Ascii.eqb_sym, Hc, Hno. split; [done|].
        rewrite Hgo. unfold String.rev; simpl. by rewrite !rev_app_app.
      * right. exists (String c a), t. by rewrite Hgo.
Qed.

Lemma ends_with_spec (suffix s : string) :
  Js.ends_with suffix s = true <-> exists a, s = a +:+ suffix.
Proof.
  induction s as [|c s IH]; cbn [Js.ends_with].
  - rewrite orb_false_r. split.
    + intros ->%String.eqb_eq. by exists "".
    + intros ([|] & H); [|done]. change ("" = suffix) in H. by subst.
  - rewrite orb_true_iff, IH. split.
    + intros [->%String.eqb_eq | (a & ->)]; [by exists ""|].
      by exists (String c a).
    + intros ([|x a] & H).
      * left. change (String c s = suffix) in H. subst. apply String.eqb_refl.
      * right. exists a. by injection H.
Qed.

(** The test [name.split('.').pop() == "eml"] in plain words: the name is
    [eml] or ends with [.eml]. *)
Lemma split_dot_pop_eml (n : string) :
  String.eqb (Js.split_dot_pop n) "eml" = has_eml_name n.
Proof.
  apply eq_true_iff_eq. unfold has_eml_name.
  rewrite orb_true_iff, ends_with_spec, !String.eqb_eq.
  unfold Js.split_dot_pop. split.
  - intros H.
    destruct (last_segment_inv "." n "") as [[_ Hgo] | (a & t & -> & _ & Hgo)].
    + left. by rewrite <- H, Hgo.
    + right. exists a. by rewrite <- H, Hgo.
  - intros [-> | (a & ->)]; [done|].
    by rewrite (last_segment_after_sep "." a "eml").
Qed.

Lemma is_eml_listed (l : list Dirent) : map name (List.filter is_eml l) = listed l.
Proof.
  unfold listed. f_equal. apply List.filter_ext. intros item.
  unfold is_eml. by rewrite split_dot_pop_eml.
Qed.

Lemma findFiles_eml (d : string) (fs : FS) (l : list Dirent) :
  fs !! d = Some l -> findFiles d (Some "eml") fs = inr (listed l).
Proof.
  intros Hd. unfold findFiles, Fs.readdir. rewrite Hd.
  by rewrite <- is_eml_listed.
Qed.


Lemma set_dirs_id (r : DRemailer) : set_dirs (dirs r) r = r.
Proof. by destruct r. Qed.

(** With its five directories on the disk the storage is ready, and the
    check forgets none of them. *)
Lemma isStorageReady_present (m : Machine) (p d e pb db : string) :
  dirs (self m) = mkDirs (Some p) (Some d) (Some e) (Some pb) (Some db) ->
  is_Some (disk m !! p) -> is_Some (disk m !! d) -> is_Some (disk m !! e) ->
  is_Some (disk m !! pb) -> is_Some (disk m !! db) ->
  isStorageReady true m
  = (true, mkMachine (self m) (disk m) (trace m ++ [Log DEBUG "Check existing"])).
Proof.
  intros Hdirs [? Hp] [? Hd] [? He] [? Hpb] [? Hdb].
  unfold isStorageReady, emlParkingDir, emlDirectDir, emlErrorDir,
    emlParkingBackupDir, emlDirectBackupDir. run.
  rewrite Hdirs. cbn [parkingDir directDir errorDir parkingBackupDir
                        directBackupDir]. run.
  unfold Fs.existsSync. rewrite Hp, Hd, He, Hpb, Hdb. cbn [andb].
  by rewrite <- Hdirs, set_dirs_id.
Qed.




(** ** Names of the stored files (C4) *)


Lemma append_nil_r (a : string) : a +:+ "" = a.
Proof.
  induction a as [|c a IH]; [done|].
  change (String c (a +:+ "") = String c a). by rewrite IH.
Qed.








Lemma replace_at_dot_length (s : string) :
  String.length (Js.replace_at_dot s) = String.length s.
Proof. induction s; simpl; congruence. Qed.

(** Sanitising leaves neither ['@'] nor ['.'] and touches nothing else. *)
Lemma replace_at_dot_get (s : string) (i : nat) :
  String.get i (Js.replace_at_dot s)
  = (fun c => if Js.is_at_or_dot c then "-"%char else c) <$> String.get i s.
Proof.
  revert i. induction s as [|c s IH]; intros [|i]; simpl; auto.
Qed.







(** * Further properties *)

(** ** Runs of the storage operations *)

(** [saveEmailToDisk] either writes the file and reports its name, or
    reports the failure of the write and leaves the disk as it was. *)
Lemma saveEmailToDisk_run
    (now : Date) (stream : list Byte.byte) (session : SMTPServerSession)
    (folder : string) (m : Machine) :
  let p := mkPath folder (emlFileName now session) in
  let intro :=
    [OnSaving session;
     Log DEBUG ("Try to save email id: " +:+ id session +:+ " to " +:+ folder);
     FsWrite p] in
  saveEmailToDisk now stream session folder m
  = match Fs.write p stream (disk m) with
    | inr fs' =>
        (inr (emlFileName now session),
         mkMachine (self m) fs'
           (trace m ++ intro ++
            [Log DEBUG ("email id " +:+ id session +:+ " saved to " +:+ folder);
             OnSaved session]))
    | inl error =>
        let msg := Js.inspected "Error saving email to disk:" (message error) in
        (inl (mkError msg),
         mkMachine (self m) (disk m)
           (trace m ++ intro ++ [OnError error; Log ERROR msg]))
    end.
Proof.
  cbv zeta. unfold saveEmailToDisk. run.
  destruct (Fs.write _ stream (disk m)); run; by rewrite <- !app_assoc.
Qed.

(** A move to a backup directory: one rename when the directory is
    available, none otherwise. *)
Lemma moveToBackup_run
    (backupDir : option string) (unavailable failed : string) (f : Path)
    (m : Machine) :
  exists l,
    moveToBackup backupDir unavailable failed f m
    = ((moveToBackup backupDir unavailable failed f m).1,
       mkMachine (self m)
         (match backupDir with
          | Some dir =>
              match Fs.rename f (mkPath dir (basename f)) (disk m) with
              | inr fs' => fs'
              | inl _ => disk m
              end
          | None => disk m
          end)
         (trace m ++ l)) /\
    List.filter is_answer l = [] /\
    List.filter is_submission l = [] /\
    List.filter is_fs_request l
    = match backupDir with
      | Some dir => [FsRename f (mkPath dir (basename f))]
      | None => []
      end.
Proof.
  unfold moveToBackup. destruct backupDir as [dir|]; run.
  - destruct (Fs.rename f _ (disk m)); run;
      by eexists; split; [rewrite <- ?app_assoc; reflexivity|].
  - by eexists; split; [rewrite <- ?app_assoc; reflexivity|].
Qed.

(** An unlink whose failure handler only logs and reports. *)
Lemma unlink_or_run (onFail : Error -> M unit) (f : Path) (m : Machine) :
  (forall err m', exists l,
     onFail err m' = (tt, mkMachine (self m') (disk m') (trace m' ++ l)) /\
     List.filter is_answer l = [] /\ List.filter is_submission l = [] /\
     List.filter is_fs_request l = []) ->
  exists l,
    unlink_or onFail f m
    = (tt, mkMachine (self m)
             (match Fs.unlink f (disk m) with
              | inr fs' => fs'
              | inl _ => disk m
              end)
             (trace m ++ l)) /\
    List.filter is_answer l = [] /\ List.filter is_submission l = [] /\
    List.filter is_fs_request l = [FsUnlink f].
Proof.
  intros Hfail. unfold unlink_or. run.
  destruct (Fs.unlink f (disk m)) as [err|fs']; run.
  - destruct (Hfail err (mkMachine (self m) (disk m) (trace m ++ [FsUnlink f])))
      as (l & -> & Hc & Hs & Hf). cbn [self disk trace].
    eexists. split; [rewrite <- app_assoc; reflexivity|].
    by rewrite !List.filter_app, Hc, Hs, Hf.
  - by eexists; split; [reflexivity|].
Qed.

(** ** Runs of a forward *)

Section Forwarding.

Variable simpleParser : list Byte.byte -> Error + option ParsedMail.
Variable sendMail : MailOptions -> Error + SentInfo.

(** What [forwardEml] appends to the trace: logger lines and at most one
    submission, whose answer is then the result. *)
Lemma forwardEml_events (ms : DMailSender) (f : Path) (m m' : Machine) :
  disk m' = disk m ->
  exists l,
    forwardEml simpleParser sendMail ms f m'
    = ((forwardEml simpleParser sendMail ms f m).1,
       mkMachine (self m') (disk m') (trace m' ++ l)) /\
    List.filter is_answer l = [] /\
    List.filter is_fs_request l = [] /\
    ((List.filter is_submission l = [] /\
      exists err, (forwardEml simpleParser sendMail ms f m).1 = inl err) \/
     (exists mailOptions,
        List.filter is_submission l = [SendMail mailOptions] /\
        (forwardEml simpleParser sendMail ms f m).1 = sendMail mailOptions)).
Proof.
  destruct m' as [r' fs' t']. simpl. intros ->. unfold forwardEml. run.
  destruct (DStatus.ready (sender_status ms)); run;
    [|by eexists; split; [reflexivity|]; repeat split; left; eauto].
  destruct (Fs.lookup_file f (disk m)) as [file|]; run;
    [|by eexists; split; [reflexivity|]; repeat split; left; eauto].
  destruct (isDirectory file); run;
    [by eexists; split; [reflexivity|]; repeat split; left; eauto|].
  destruct (transporter ms); run;
    [|by eexists; split; [reflexivity|]; repeat split; left; eauto].
  destruct (simpleParser (data file)) as [err|[mail|]]; run;
    [by eexists; split; [rewrite <- !app_assoc; reflexivity|];
        repeat split; left; eauto| |
     by eexists; split; [rewrite <- !app_assoc; reflexivity|];
        repeat split; left; eauto].
  destruct (from mail) as [parsedFrom|]; run;
    [|by eexists; split; [rewrite <- !app_assoc; reflexivity|];
         repeat split; left; eauto].
  destruct (to mail) as [[a|l]|]; simpl; run;
    [destruct (Js.truthy (text a)); run| |];
    (eexists; split; [rewrite <- !app_assoc; reflexivity|]; repeat split;
     first [by left; eauto | by right; eauto]).
Qed.

(** [moveToError], whatever the error directory. *)
Lemma moveToError_frame (f : Path) (err : Error) (m : Machine) :
  exists l,
    moveToError f err m
    = (tt, mkMachine (self m) (error_disk (emlErrorDir (self m)) f (disk m))
             (trace m ++ l)) /\
    List.filter is_answer l = [] /\
    List.filter is_submission l = [] /\
    List.filter is_fs_request l
    = match emlErrorDir (self m) with
      | Some dir => [FsRename f (mkPath dir (basename f))]
      | None => []
      end.
Proof.
  unfold moveToError, error_disk. run.
  destruct (emlErrorDir (self m)) as [dir|]; run.
  - destruct (Fs.rename f _ (disk m)); run;
      by eexists; split; [rewrite <- ?app_assoc; reflexivity|].
  - by eexists; split; [rewrite <- ?app_assoc; reflexivity|].
Qed.

(** [forward] with a sender: the result is that of the submission by the
    sender; a failure is followed by the move to the error directory, a
    success leaves the disk alone. *)
Lemma forward_outcome (f : Path) (m m' : Machine) (ms : DMailSender) :
  mailSender (self m') = Some ms ->
  disk m' = disk m ->
  exists l,
    List.filter is_answer l = [] /\
    (length (List.filter is_submission l) <= 1)%nat /\
    match (forwardEml simpleParser sendMail ms f m).1 with
    | inr info =>
        forward simpleParser sendMail f m'
        = (inr info, mkMachine (self m') (disk m') (trace m' ++ l)) /\
        List.filter is_fs_request l = [] /\
        exists mailOptions,
          List.filter is_submission l = [SendMail mailOptions] /\
          sendMail mailOptions = inr info
    | inl err =>
        forward simpleParser sendMail f m'
        = (inl err,
           mkMachine (self m') (error_disk (emlErrorDir (self m')) f (disk m'))
             (trace m' ++ l)) /\
        List.filter is_fs_request l
        = match emlErrorDir (self m') with
          | Some dir => [FsRename f (mkPath dir (basename f))]
          | None => []
          end
    end.
Proof.
  intros Hsender Hdisk.
  set (m1 := mkMachine (self m') (disk m')
               (trace m' ++ [OnForwarding (path_str f)])).
  destruct (forwardEml_events ms f m m1 Hdisk) as (l & Hrun & Hc & Hf & Hs).
  cbn [self disk trace m1] in Hrun.
  assert (length (List.filter is_submission l) <= 1)%nat as Hs'.
  { destruct Hs as [[-> _] | (o & -> & _)]; simpl; lia. }
  unfold forward. run. rewrite Hsender. run. fold m1. rewrite Hrun. run.
  destruct ((forwardEml simpleParser sendMail ms f m).1) as [err|info]; run.
  - set (m2 := mkMachine (self m') (disk m') _).
    destruct (moveToError_frame f err m2) as (l2 & -> & Hc2 & Hs2 & Hf2).
    subst m2. run.
    eexists. split; [|split; [|split; [rewrite <- !app_assoc; reflexivity|]]].
    + by rewrite !List.filter_app, Hc, Hc2.
    + rewrite !List.filter_app, Hs2, !length_app. simpl. lia.
    + rewrite !List.filter_app, Hf, Hf2. simpl.
      by destruct (emlErrorDir (self m')).
  - destruct Hs as [[_ [? ?]] | (o & Hs & Ho)]; [done|].
    eexists.
    split; [|split; [|split; [rewrite <- !app_assoc; reflexivity|split]]].
    + by rewrite !List.filter_app, Hc.
    + rewrite !List.filter_app, !length_app. simpl. lia.
    + by rewrite !List.filter_app, Hf.
    + exists o. by rewrite !List.filter_app, Hs.
Qed.

(** [forward] changes nothing of the instance and never calls the
    completion callback. *)
Lemma forward_frame (f : Path) (m : Machine) :
  exists fs l,
    forward simpleParser sendMail f m
    = ((forward simpleParser sendMail f m).1,
       mkMachine (self m) fs (trace m ++ l)) /\
    List.filter is_answer l = [] /\
    (length (List.filter is_submission l) <= 1)%nat.
Proof.
  destruct (mailSender (self m)) as [ms|] eqn:Hsender.
  - destruct (forward_outcome f m m ms Hsender eq_refl) as (l & Hc & Hs & H).
    destruct ((forwardEml simpleParser sendMail ms f m).1);
      destruct H as [-> _]; by eexists _, l.
  - unfold forward. run. rewrite Hsender. run.
    eexists _, _. split; [rewrite <- app_assoc; reflexivity|]. simpl.
    split; [done|lia].
Qed.

End Forwarding.

(** ** Ingress: every path of [onData] *)

Lemma truthy_app_r (a b : string) :
  Js.truthy b = true -> Js.truthy (a +:+ b) = true.
Proof. by destruct a. Qed.

(** A stored name is never the empty string. *)
Lemma emlFileName_truthy (now : Date) (session : SMTPServerSession) :
  Js.truthy (emlFileName now session) = true.
Proof. unfold emlFileName. by repeat apply truthy_app_r. Qed.

Section IngressPaths.

Variable simpleParser : list Byte.byte -> Error + option ParsedMail.
Variable sendMail : MailOptions -> Error + SentInfo.

Lemma onData_parking_run
    (now : Date) (stream : list Byte.byte) (session : SMTPServerSession)
    (m : Machine) (parkingDir : string) (fs' : FS) :
  DStatus.ready (status (self m)) = true ->
  listenerPaused (self m) = false ->
  0 < timerIntervalMs (self m) ->
  emlParkingDir (self m) = Some parkingDir ->
  Fs.write (mkPath parkingDir (emlFileName now session)) stream (disk m)
  = inr fs' ->
  onData simpleParser sendMail now stream session m
  = (tt, mkMachine
           (set_emlParkingQueue
              (emlParkingQueue (self m) ++ [emlFileName now session]) (self m))
           fs'
           (trace m ++
            [OnReceiving session; OnSaving session;
             Log DEBUG ("Try to save email id: " +:+ id session +:+ " to " +:+
                        parkingDir);
             FsWrite (mkPath parkingDir (emlFileName now session));
             Log DEBUG ("email id " +:+ id session +:+ " saved to " +:+
                        parkingDir);
             OnSaved session; Callback None])).
Proof.
  intros Hready Hlistener Htimer Hdir Hwrite.
  apply Z.ltb_lt in Htimer.
  unfold onData. run. rewrite Hready, Hlistener, Htimer, Hdir. run.
  rewrite saveEmailToDisk_run. cbn [self disk trace]. rewrite Hwrite. run.
  by rewrite <- !app_assoc.
Qed.

(** X1.  Timed mode, ready, listener not paused, parking directory
    available: a message whose file can be written is stored in the
    parking directory, its name becomes the tail of the parking queue and
    the completion callback is invoked once, without error, after the file
    is saved.  Nothing is forwarded. *)
Theorem onData_parking_stored
    (now : Date) (stream : list Byte.byte) (session : SMTPServerSession)
    (m : Machine) (parkingDir : string) (fs' : FS) :
  DStatus.ready (status (self m)) = true ->
  listenerPaused (self m) = false ->
  0 < timerIntervalMs (self m) ->
  emlParkingDir (self m) = Some parkingDir ->
  Fs.write (mkPath parkingDir (emlFileName now session)) stream (disk m)
  = inr fs' ->
  onData simpleParser sendMail now stream session m
  = (tt, mkMachine
           (set_emlParkingQueue
              (emlParkingQueue (self m) ++ [emlFileName now session]) (self m))
           fs'
           (trace m ++
            [OnReceiving session; OnSaving session;
             Log DEBUG ("Try to save email id: " +:+ id session +:+ " to " +:+
                        parkingDir);
             FsWrite (mkPath parkingDir (emlFileName now session));
             Log DEBUG ("email id " +:+ id session +:+ " saved to " +:+
                        parkingDir);
             OnSaved session; Callback None])).
Proof. intros. by apply onData_parking_run. Qed.

Lemma onData_rejected_run
    (now : Date) (stream : list Byte.byte) (session : SMTPServerSession)
    (m : Machine) :
  DStatus.ready (status (self m)) = false \/ ingress_dir (self m) = None ->
  exists err : Error,
    onData simpleParser sendMail now stream session m
    = (tt, mkMachine (self m) (disk m)
             (trace m ++ [OnReceiving session; PipeNull session;
                          Callback (Some err); OnReject session err])).
Proof.
  intros Hcase. unfold onData, reject_session, ingress_dir in *. run.
  destruct (DStatus.ready (status (self m))); run;
    [|by eexists; rewrite <- !app_assoc].
  destruct Hcase as [|Hdir]; [done|].
  destruct (listenerPaused (self m)); run; [by eexists; rewrite <- !app_assoc|].
  destruct (0 <? timerIntervalMs (self m)); rewrite Hdir; run;
    by eexists; rewrite <- !app_assoc.
Qed.

(** X2.  A message is rejected before anything is stored when the
    instance is not ready, or when the directory of the current mode
    (parking with the timer, direct without) is unavailable: the body goes
    to the null sink, the callback gets an error, the reject hook gets the
    same error, and the instance and the disk are unchanged. *)
Theorem onData_rejected_before_storing
    (now : Date) (stream : list Byte.byte) (session : SMTPServerSession)
    (m : Machine) :
  DStatus.ready (status (self m)) = false \/ ingress_dir (self m) = None ->
  exists err : Error,
    onData simpleParser sendMail now stream session m
    = (tt, mkMachine (self m) (disk m)
             (trace m ++ [OnReceiving session; PipeNull session;
                          Callback (Some err); OnReject session err])).
Proof. intros. by apply onData_rejected_run. Qed.



(** What follows the save in direct mode with a live sender. *)
Lemma direct_delivery_run
    (session : SMTPServerSession) (emlName directDir : string)
    (m0 m : Machine) (ms : DMailSender) :
  mailSender (self m) = Some ms ->
  disk m = disk m0 ->
  let f := mkPath directDir emlName in
  let backup := truthy_flag (backupEnabled (config (self m))) in
  let after :=
    (res ← forward simpleParser sendMail f;
     match res with
     | inr info =>
         emit (Callback None);;
         if backup then
           log_d ("Backing up " +:+ emlName);;
           _ ← moveToDirectBackup f; mret tt
         else
           log_d ("Deleting " +:+ emlName);;
           unlink_or
             (fun err =>
                let error :=
                  mkError ("Cannot delete file: " +:+ path_str f +:+ " " +:+
                           message err) in
                log_e (message err);;
                emit (OnError error)) f
     | inl err =>
         emit (Callback (Some err));;
         emit (OnReject session err)
     end) m in
  exists l,
    (length (List.filter is_submission l) <= 1)%nat /\
    match (forwardEml simpleParser sendMail ms f m0).1 with
    | inr info =>
        after
        = (tt, mkMachine (self m)
                 (delivered_disk backup (emlDirectBackupDir (self m)) f (disk m))
                 (trace m ++ l)) /\
        List.filter is_answer l = [Callback None] /\
        List.filter is_fs_request l
        = delivered_requests backup (emlDirectBackupDir (self m)) f /\
        exists mailOptions,
          List.filter is_submission l = [SendMail mailOptions] /\
          sendMail mailOptions = inr info
    | inl err =>
        after
        = (tt, mkMachine (self m)
                 (error_disk (emlErrorDir (self m)) f (disk m))
                 (trace m ++ l)) /\
        List.filter is_answer l = [Callback (Some err); OnReject session err] /\
        List.filter is_fs_request l
        = match emlErrorDir (self m) with
          | Some dir => [FsRename f (mkPath dir emlName)]
          | None => []
          end
    end.
Proof.
  intros Hsender Hdisk f backup after.
  destruct (forward_outcome simpleParser sendMail f m0 m ms Hsender Hdisk)
    as (l & Ha & Hs & Hout).
  subst after. rewrite run_bind.
  destruct ((forwardEml simpleParser sendMail ms f m0).1) as [err|info].
  - destruct Hout as [-> Hf]. run.
    eexists. split; [|split; [rewrite <- !app_assoc; reflexivity|split]].
    + rewrite !List.filter_app, !length_app. simpl. lia.
    + by rewrite !List.filter_app, Ha.
    + by rewrite !List.filter_app, Hf, !app_nil_r.
  - destruct Hout as (-> & Hf & o & Ho & Hsent). run.
    unfold delivered_disk, delivered_requests. subst backup.
    destruct (truthy_flag (backupEnabled (config (self m)))).
    + unfold moveToDirectBackup. run.
      set (m2 := mkMachine (self m) (disk m) _).
      destruct (moveToBackup_run (emlDirectBackupDir (self m))
                  " to direct backup folder: folder is unavailable"
                  " to error folder: " f m2) as (l2 & -> & Ha2 & Hs2 & Hf2).
      subst m2. run. unfold error_disk.
      eexists. split; [|split; [rewrite <- !app_assoc; reflexivity|
                                split; [|split]]].
      * rewrite !List.filter_app, Ho, Hs2. simpl. lia.
      * by rewrite !List.filter_app, Ha, Ha2.
      * by rewrite !List.filter_app, Hf, Hf2.
      * exists o. by rewrite !List.filter_app, Ho, Hs2.
    + match goal with
      | |- context [unlink_or ?h f ?m2] =>
          destruct (unlink_or_run h f m2) as (l2 & Hrun & Ha2 & Hs2 & Hf2)
      end.
      { intros e m'. run.
        by eexists; split; [rewrite <- app_assoc; reflexivity|]. }
      rewrite Hrun. run.
      eexists. split; [|split; [rewrite <- !app_assoc; reflexivity|
                                split; [|split]]].
      * rewrite !List.filter_app, Ho, Hs2. simpl. lia.
      * by rewrite !List.filter_app, Ha, Ha2.
      * by rewrite !List.filter_app, Hf, Hf2.
      * exists o. by rewrite !List.filter_app, Ho, Hs2.
Qed.


(** The same, whatever the sender: the instance is untouched and the
    session is answered once. *)
Lemma direct_delivery_frame
    (session : SMTPServerSession) (emlName directDir : string) (m : Machine) :
  let f := mkPath directDir emlName in
  exists fs l,
    (res ← forward simpleParser sendMail f;
     match res with
     | inr info =>
         emit (Callback None);;
         if truthy_flag (backupEnabled (config (self m))) then
           log_d ("Backing up " +:+ emlName);;
           _ ← moveToDirectBackup f; mret tt
         else
           log_d ("Deleting " +:+ emlName);;
           unlink_or
             (fun err =>
                let error :=
                  mkError ("Cannot delete file: " +:+ path_str f +:+ " " +:+
                           message err) in
                log_e (message err);;
                emit (OnError error)) f
     | inl err =>
         emit (Callback (Some err));;
         emit (OnReject session err)
     end) m
    = (tt, mkMachine (self m) fs (trace m ++ l)) /\
    (length (List.filter is_submission l) <= 1)%nat /\
    (List.filter is_answer l = [Callback None] \/
     exists err, List.filter is_answer l = [Callback (Some err); OnReject session err]).
Proof.
  intros f. destruct (mailSender (self m)) as [ms|] eqn:Hsender.
  - destruct (direct_delivery_run session emlName directDir m m ms Hsender eq_refl)
      as (l & Hs & H). fold f in H.
    destruct ((forwardEml simpleParser sendMail ms f m).1) as [err|info].
    + destruct H as (-> & Ha & _). eexists _, l. eauto.
    + destruct H as (-> & Ha & _). eexists _, l. eauto.
  - rewrite run_bind. unfold forward. run. rewrite Hsender. run.
    eexists _, _. split; [rewrite <- !app_assoc; reflexivity|]. simpl.
    split; [lia|]. right. eauto.
Qed.

(** Every run of [onData]: what becomes of the instance and how the
    session is answered. *)
Lemma onData_shape
    (now : Date) (stream : list Byte.byte) (session : SMTPServerSession)
    (m : Machine) :
  exists r fs l,
    onData simpleParser sendMail now stream session m
    = (tt, mkMachine r fs (trace m ++ l)) /\
    (length (List.filter is_submission l) <= 1)%nat /\
    ((r = self m /\ fs = disk m /\
      exists err,
        List.filter is_answer l
        = [PipeNull session; Callback (Some err); OnReject session err]) \/
     (r = self m /\
      exists err,
        List.filter is_answer l = [Callback (Some err); OnReject session err]) \/
     (r = self m /\ timerIntervalMs (self m) <= 0 /\
      senderPaused (self m) = false /\
      List.filter is_answer l = [Callback None]) \/
     (r = set_emlParkingQueue
            (emlParkingQueue (self m) ++ [emlFileName now session]) (self m) /\
      0 < timerIntervalMs (self m) /\
      List.filter is_answer l = [Callback None]) \/
     (r = self m /\ timerIntervalMs (self m) <= 0 /\
      senderPaused (self m) = true /\
      List.filter is_answer l = [])).
Proof.
  unfold onData, reject_session. run.
  destruct (DStatus.ready (status (self m))); run;
    [|eexists _, _, _; split; [rewrite <- !app_assoc; reflexivity|];
      split; [simpl; lia|]; left; eauto].
  destruct (listenerPaused (self m)); run;
    [eexists _, _, _; split; [rewrite <- !app_assoc; reflexivity|];
     split; [simpl; lia|]; left; eauto|].
  destruct (Z.ltb_spec 0 (timerIntervalMs (self m))) as [Htimer|Htimer].
  - destruct (emlParkingDir (self m)) as [parkingDir|]; run;
      [|eexists _, _, _; split; [rewrite <- !app_assoc; reflexivity|];
        split; [simpl; lia|]; left; eauto].
    rewrite saveEmailToDisk_run. cbn [self disk trace].
    destruct (Fs.write _ stream (disk m)); run;
      (eexists _, _, _; split; [rewrite <- !app_assoc; reflexivity|];
       split; [simpl; lia|]).
    + right. left. eauto.
    + do 3 right. left. eauto.
  - destruct (emlDirectDir (self m)) as [directDir|]; run;
      [|eexists _, _, _; split; [rewrite <- !app_assoc; reflexivity|];
        split; [simpl; lia|]; left; eauto].
    rewrite saveEmailToDisk_run. cbn [self disk trace].
    destruct (Fs.write _ stream (disk m)) as [error|fs']; run.
    { eexists _, _, _. split; [rewrite <- !app_assoc; reflexivity|].
      split; [simpl; lia|]. right. left. eauto. }
    rewrite emlFileName_truthy. run.
    destruct (senderPaused (self m)) eqn:Hpaused; run.
    { eexists _, _, _. split; [rewrite <- !app_assoc; reflexivity|].
      split; [simpl; lia|]. do 4 right. eauto. }
    set (m1 := mkMachine (self m) fs' _).
    destruct (direct_delivery_frame session (emlFileName now session)
                directDir m1) as (fs & l & Hrun & Hs & Ha).
    eexists (self m), fs, _. split.
    { etransitivity; [exact Hrun|]. subst m1. cbn [self trace].
      rewrite <- !app_assoc. reflexivity. }
    split; [by rewrite !List.filter_app|].
    rewrite !List.filter_app. simpl.
    destruct Ha as [-> | (err & ->)]; [do 2 right; left; eauto|].
    right. left. eauto.
Qed.


(** X5.  Direct mode with a live sender, the file written and the
    submission failed with [err]: the callback gets [err], the reject hook
    gets [err], and the only request after the write is the rename of the
    file to the error directory (none when that directory is unavailable).
    The message is not moved to a backup directory and not unlinked. *)
Theorem onData_direct_forward_failed
    (now : Date) (stream : list Byte.byte) (session : SMTPServerSession)
    (m : Machine) (directDir : string) (fs' : FS) (ms : DMailSender)
    (err : Error) :
  DStatus.ready (status (self m)) = true ->
  listenerPaused (self m) = false ->
  timerIntervalMs (self m) <= 0 ->
  emlDirectDir (self m) = Some directDir ->
  senderPaused (self m) = false ->
  mailSender (self m) = Some ms ->
  let f := mkPath directDir (emlFileName now session) in
  Fs.write f stream (disk m) = inr fs' ->
  (forwardEml simpleParser sendMail ms f (mkMachine (self m) fs' (trace m))).1
  = inl err ->
  exists l,
    onData simpleParser sendMail now stream session m
    = (tt, mkMachine (self m) (error_disk (emlErrorDir (self m)) f fs')
             (trace m ++ l)) /\
    List.filter is_answer l = [Callback (Some err); OnReject session err] /\
    List.filter is_fs_request l
    = FsWrite f ::
      match emlErrorDir (self m) with
      | Some dir => [FsRename f (mkPath dir (emlFileName now session))]
      | None => []
      end.
Proof.
  intros Hready Hlistener Htimer Hdir Hpaused Hsender f Hwrite Hsent.
  assert ((0 <? timerIntervalMs (self m)) = false) as Hmode
    by by apply Z.ltb_ge.
  set (m1 := mkMachine (self m) fs'
    (trace m ++ [OnReceiving session] ++
     [OnSaving session;
      Log DEBUG ("Try to save email id: " +:+ id session +:+ " to " +:+ directDir);
      FsWrite f] ++
     [Log DEBUG ("email id " +:+ id session +:+ " saved to " +:+ directDir);
      OnSaved session])).
  destruct (direct_delivery_run session (emlFileName now session) directDir
              (mkMachine (self m) fs' (trace m)) m1 ms Hsender eq_refl)
    as (l & _ & H).
  fold f in H. rewrite Hsent in H. destruct H as (Hrun & Ha & Hf).
  unfold onData. run. rewrite Hready, Hlistener, Hmode, Hdir. run.
  rewrite saveEmailToDisk_run. cbn [self disk trace]. fold f.
  rewrite Hwrite. run. rewrite emlFileName_truthy, Hpaused. run.
  rewrite <- !app_assoc. fold m1.
  eexists. split.
  { etransitivity; [exact Hrun|]. subst m1. cbn [self disk trace].
    rewrite <- !app_assoc. reflexivity. }
  rewrite !List.filter_app, Ha, Hf. simpl. done.
Qed.

(** X6.  Whatever the state and the message, [onData] answers the
    session in one of four ways: rejected before storing (null sink, callback
    with error, reject hook), failed after storing began (callback with
    error, reject hook with the same error), acknowledged (callback without
    error, no reject hook), or not answered at all, which happens only in
    direct mode with the sender paused.  The callback is never invoked
    twice, the reject hook fires exactly with a callback error, and at most
    one message is submitted upstream. *)
Theorem onData_answers
    (now : Date) (stream : list Byte.byte) (session : SMTPServerSession)
    (m : Machine) :
  let answers :=
    List.filter is_answer
      (events_since m (onData simpleParser sendMail now stream session m).2) in
  let submissions :=
    List.filter is_submission
      (events_since m (onData simpleParser sendMail now stream session m).2) in
  (length submissions <= 1)%nat /\
  ((exists err,
      answers = [PipeNull session; Callback (Some err); OnReject session err]) \/
   (exists err, answers = [Callback (Some err); OnReject session err]) \/
   answers = [Callback None] \/
   (answers = [] /\ timerIntervalMs (self m) <= 0 /\
    senderPaused (self m) = true)).
Proof.
  cbv zeta. destruct (onData_shape now stream session m)
    as (r & fs & l & -> & Hs & H).
  cbn [snd]. rewrite events_since_app. split; [done|].
  destruct H as [(_ & _ & err & ->) | [(_ & err & ->) | [(_ & _ & _ & ->) |
                 [(_ & _ & ->) | (_ & ? & ? & ->)]]]]; eauto 6.
Qed.

(** X7.  [onData] changes nothing of the instance but the parking queue,
    and only by appending the stored name in timed mode, exactly when the
    session is acknowledged: the direct, error and backup queues, the
    status record, the directories and the pause flags are never written,
    and in direct mode no queue at all records the message. *)
Theorem onData_instance_frame
    (now : Date) (stream : list Byte.byte) (session : SMTPServerSession)
    (m : Machine) :
  let out := (onData simpleParser sendMail now stream session m).2 in
  self out = self m \/
  (0 < timerIntervalMs (self m) /\
   self out
   = set_emlParkingQueue
       (emlParkingQueue (self m) ++ [emlFileName now session]) (self m) /\
   List.filter is_answer (events_since m out) = [Callback None]).
Proof.
  cbv zeta. destruct (onData_shape now stream session m)
    as (r & fs & l & -> & Hs & H).
  cbn [snd self]. rewrite events_since_app.
  destruct H as [(-> & _) | [(-> & _) | [(-> & _) |
                 [(-> & ? & ->) | (-> & _)]]]]; eauto.
Qed.

End IngressPaths.

(** ** The relay: every path of [forwardOne] *)

Section RelayPaths.

Variable simpleParser : list Byte.byte -> Error + option ParsedMail.
Variable sendMail : MailOptions -> Error + SentInfo.

(** The tail of [forwardOne] after a forward that succeeded. *)
Lemma after_delivery_run (emlName : string) (f : Path) (m : Machine) :
  let backup := truthy_flag (backupEnabled (config (self m))) in
  exists l,
    ((if backup then
        log_d ("Backing up " +:+ emlName);;
        _ ← moveToParkingBackup f; mret tt
      else
        log_d ("Deleting " +:+ emlName);;
        unlink_or (fun err => emit (OnError err)) f) m)
    = (tt, mkMachine (self m)
             (delivered_disk backup (emlParkingBackupDir (self m)) f (disk m))
             (trace m ++ l)) /\
    List.filter is_answer l = [] /\
    List.filter is_submission l = [] /\
    List.filter is_fs_request l
    = delivered_requests backup (emlParkingBackupDir (self m)) f.
Proof.
  cbv zeta. unfold delivered_disk, delivered_requests.
  destruct (truthy_flag (backupEnabled (config (self m)))).
  - unfold moveToParkingBackup. run.
    set (m2 := mkMachine (self m) (disk m) _).
    destruct (moveToBackup_run (emlParkingBackupDir (self m))
                " to backup folder: folder is unavailable"
                " to parking bakup folder: " f m2) as (l2 & -> & Ha2 & Hs2 & Hf2).
    subst m2. run. unfold error_disk.
    eexists. split; [rewrite <- !app_assoc; reflexivity|].
    by rewrite !List.filter_app, Ha2, Hs2, Hf2.
  - run.
    match goal with
    | |- context [unlink_or ?h f ?m2] =>
        destruct (unlink_or_run h f m2) as (l2 & Hrun & Ha2 & Hs2 & Hf2)
    end.
    { intros e m'. run. by eexists; split; [reflexivity|]. }
    rewrite Hrun. run.
    eexists. split; [rewrite <- !app_assoc; reflexivity|].
    by rewrite !List.filter_app, Ha2, Hs2, Hf2.
Qed.

(** Every run of [forwardOne] with the parking directory available. *)
Lemma forwardOne_shape (m : Machine) (parkingDir : string) :
  emlParkingDir (self m) = Some parkingDir ->
  exists res q fs l,
    forwardOne simpleParser sendMail m
    = (res, mkMachine (set_emlParkingQueue q (self m)) fs (trace m ++ l)) /\
    List.filter is_answer l = [] /\
    (length (List.filter is_submission l) <= 1)%nat /\
    ((res = FoUndefined /\ q = tail (emlParkingQueue (self m)) /\
      fs = disk m /\ l = [] /\
      (emlParkingQueue (self m) = [] \/
       exists rest, emlParkingQueue (self m) = "" :: rest)) \/
     (exists emlName rest info ms,
        emlParkingQueue (self m) = emlName :: rest /\ emlName <> "" /\
        mailSender (self m) = Some ms /\
        (forwardEml simpleParser sendMail ms (mkPath parkingDir emlName) m).1
        = inr info /\
        res = FoInfo info /\ q = rest /\
        fs = delivered_disk (truthy_flag (backupEnabled (config (self m))))
               (emlParkingBackupDir (self m)) (mkPath parkingDir emlName)
               (disk m) /\
        List.filter is_fs_request l
        = delivered_requests (truthy_flag (backupEnabled (config (self m))))
            (emlParkingBackupDir (self m)) (mkPath parkingDir emlName)) \/
     (exists emlName rest err,
        emlParkingQueue (self m) = emlName :: rest /\ emlName <> "" /\
        res = FoError err /\ q = rest ++ [emlName] /\
        ((mailSender (self m) = None /\ fs = disk m /\
          List.filter is_fs_request l = []) \/
         ((exists ms,
             mailSender (self m) = Some ms /\
             (forwardEml simpleParser sendMail ms (mkPath parkingDir emlName) m).1
             = inl err) /\
          fs = error_disk (emlErrorDir (self m)) (mkPath parkingDir emlName)
                 (disk m) /\
          List.filter is_fs_request l
          = match emlErrorDir (self m) with
            | Some dir => [FsRename (mkPath parkingDir emlName)
                             (mkPath dir emlName)]
            | None => []
            end)))).
Proof.
  intros Hdir. unfold forwardOne. run. rewrite Hdir.
  destruct (emlParkingQueue (self m)) as [|emlName rest] eqn:Hq;
    cbn [head tail]; run.
  { eexists _, _, _, []. rewrite app_nil_r.
    split; [reflexivity|]. split; [done|]. split; [simpl; lia|].
    left. eauto 8. }
  destruct emlName as [|c emlName'] eqn:Hname; cbn [Js.truthy]; run.
  { eexists _, _, _, []. rewrite app_nil_r.
    split; [reflexivity|]. split; [done|]. split; [simpl; lia|].
    left. eauto 8. }
  rewrite <- Hname in *. assert (emlName <> "") as Hne by by subst.
  clear Hname. set (f := mkPath parkingDir emlName).
  set (m1 := mkMachine (set_emlParkingQueue rest (self m)) (disk m) _).
  assert (config (self m1) = config (self m) /\
          mailSender (self m1) = mailSender (self m) /\
          emlErrorDir (self m1) = emlErrorDir (self m) /\
          emlParkingBackupDir (self m1) = emlParkingBackupDir (self m) /\
          emlParkingQueue (self m1) = rest /\
          (forall q, set_emlParkingQueue q (self m1)
                     = set_emlParkingQueue q (self m)))
    as (Hcfg & Hms & Herr & Hbak & Hq1 & Hset)
    by (subst m1; by destruct (self m) as [? ? ? ? [] ? ? ? ? ? ?]).
  destruct (mailSender (self m)) as [ms|] eqn:Hsender.
  - destruct (forward_outcome simpleParser sendMail f m m1 ms Hms eq_refl)
      as (l & Ha & Hs & H).
    destruct ((forwardEml simpleParser sendMail ms f m).1) as [err|info]
      eqn:Hres.
    + destruct H as [-> Hf]. run. rewrite Hq1, Hset, Herr.
      subst m1. cbn [self disk trace].
      eexists _, _, _, _. split; [rewrite <- !app_assoc; reflexivity|].
      rewrite !List.filter_app, Ha. split; [done|].
      split; [rewrite length_app; simpl; lia|].
      right. right. exists emlName, rest, err. repeat split; try done.
      right. rewrite Herr in Hf. rewrite Hf. eauto.
    + destruct H as (-> & Hf & o & Ho & _). run.
      set (m2 := mkMachine (self m1) (disk m1) (trace m1 ++ l)).
      destruct (after_delivery_run emlName f m2) as (l2 & Hrun & Ha2 & Hs2 & Hf2).
      apply (f_equal snd) in Hrun. cbn [snd self disk trace m2] in Hrun, Hf2.
      rewrite Hcfg, Hbak in Hrun, Hf2.
      rewrite <- (set_emlParkingQueue_id (self m1)), Hq1, Hset in Hrun.
      subst m1. cbn [self disk trace] in Hrun. rewrite <- !app_assoc in Hrun.
      eexists _, _, _, _. split.
      { apply (f_equal (pair (FoInfo info))). exact Hrun. }
      rewrite !List.filter_app, Ha, Ha2, Ho, Hs2, Hf, Hf2.
      split; [done|]. split; [simpl; lia|].
      right. left. exists emlName, rest, info, ms. by repeat split.
  - unfold forward. run. rewrite Hms. run. rewrite Hq1, Hset.
    subst m1. cbn [self disk trace].
    eexists _, _, _, _. split; [rewrite <- !app_assoc; reflexivity|].
    split; [done|]. split; [simpl; lia|].
    right. right. eexists emlName, rest, _. repeat split; try done.
    by left.
Qed.


(** X8.  Without a parking directory [forwardOne] settles to [false],
    empties the parking queue in memory and marks the instance not ready,
    without any request to the file system or the upstream server.  From
    then on every message is rejected by [onData]. *)
Theorem forwardOne_parking_unavailable
    (m : Machine) (now : Date) (stream : list Byte.byte)
    (session : SMTPServerSession) :
  emlParkingDir (self m) = None ->
  let out := forwardOne simpleParser sendMail m in
  out.1 = FoFalse /\
  self out.2
  = set_status (DStatus.mk false "Parking storage folder not available")
      (set_emlParkingQueue [] (self m)) /\
  disk out.2 = disk m /\
  List.filter is_fs_request (events_since m out.2) = [] /\
  List.filter is_submission (events_since m out.2) = [] /\
  exists err,
    List.filter is_answer
      (events_since out.2
         (onData simpleParser sendMail now stream session out.2).2)
    = [PipeNull session; Callback (Some err); OnReject session err].
Proof.
  intros Hdir out.
  assert (out = (FoFalse,
                 mkMachine
                   (set_status
                      (DStatus.mk false "Parking storage folder not available")
                      (set_emlParkingQueue [] (self m)))
                   (disk m)
                   (trace m ++
                    [Log ERROR "Parking storage folder not available";
                     OnError (mkError "Parking storage folder not available")])))
    as ->.
  { subst out. unfold forwardOne. run. rewrite Hdir. run.
    by rewrite <- !app_assoc. }
  cbn [fst snd self disk]. rewrite events_since_app. repeat split.
  set (m' := mkMachine _ _ _).
  destruct (onData_rejected_run simpleParser sendMail now stream
              session m') as (err & ->); [by left|].
  exists err. cbn [snd]. by rewrite events_since_app.
Qed.

(** X9.  When the submission of the head of the parking queue is
    accepted, [forwardOne] settles to the receipt and removes the name from
    the queue for good, whatever becomes of the file: with backups enabled
    its only request is the rename to the parking backup directory (none
    when that directory is unavailable), otherwise the unlink.  A failure
    of that request does not put the name back. *)
Theorem forwardOne_delivered
    (m : Machine) (parkingDir emlName : string) (rest : list string)
    (ms : DMailSender) (info : SentInfo) :
  emlParkingDir (self m) = Some parkingDir ->
  emlParkingQueue (self m) = emlName :: rest ->
  emlName <> "" ->
  mailSender (self m) = Some ms ->
  (forwardEml simpleParser sendMail ms (mkPath parkingDir emlName) m).1
  = inr info ->
  let f := mkPath parkingDir emlName in
  let backup := truthy_flag (backupEnabled (config (self m))) in
  let out := forwardOne simpleParser sendMail m in
  out.1 = FoInfo info /\
  self out.2 = set_emlParkingQueue rest (self m) /\
  disk out.2 = delivered_disk backup (emlParkingBackupDir (self m)) f (disk m) /\
  List.filter is_fs_request (events_since m out.2)
  = delivered_requests backup (emlParkingBackupDir (self m)) f.
Proof.
  intros Hdir Hq Hne Hsender Hres f backup out.
  destruct (forwardOne_shape m parkingDir Hdir)
    as (res & q & fs & l & Hrun & _ & _ & H).
  subst out. rewrite Hrun. cbn [fst snd self disk]. rewrite events_since_app.
  rewrite Hq in H.
  destruct H as [(_ & _ & _ & _ & [? | (? & ?)]) |
                 [(n & r & i & ms' & Heq & _ & Hms & Hi & -> & -> & -> & ->) |
                  (n & r & e & Heq & _ & _ & _ & [(Hms & _) |
                     ((ms' & Hms & He) & _)])]];
    simplify_eq; try done; try congruence.
  assert (i = info) as -> by congruence. done.
Qed.

(** X10.  [forwardOne] consumes the head of the parking queue and nothing
    else: with the parking directory available, the queue afterwards is
    the old queue without its head, or, exactly when an error is returned,
    the old queue with its head moved to the tail.  No name is ever added
    and the rest of the instance is unchanged; at most one message is
    submitted and the completion callback of a session is never touched. *)
Theorem forwardOne_consumes_head (m : Machine) (parkingDir : string) :
  emlParkingDir (self m) = Some parkingDir ->
  let out := forwardOne simpleParser sendMail m in
  let queue := emlParkingQueue (self m) in
  (exists q,
     self out.2 = set_emlParkingQueue q (self m) /\
     ((q = tail queue /\
       (out.1 = FoUndefined \/ exists info, out.1 = FoInfo info)) \/
      (exists emlName rest err,
         queue = emlName :: rest /\ q = rest ++ [emlName] /\
         out.1 = FoError err))) /\
  (length (List.filter is_submission (events_since m out.2)) <= 1)%nat /\
  List.filter is_answer (events_since m out.2) = [].
Proof.
  intros Hdir out queue.
  destruct (forwardOne_shape m parkingDir Hdir)
    as (res & q & fs & l & Hrun & Ha & Hs & H).
  subst out queue. rewrite Hrun. cbn [fst snd self]. rewrite events_since_app.
  split; [|done]. exists q. split; [done|].
  destruct H as [(-> & -> & _) |
                 [(n & r & i & ms & -> & _ & _ & _ & -> & -> & _) |
                  (n & r & e & -> & _ & -> & -> & _)]]; eauto 8.
Qed.

(** X11.  Without a sender object ([senderSmtpHost] not set) a call of
    [forwardOne] returns the error of [forward], moves the head of the
    queue to its tail and leaves the disk alone: the file is not moved to
    the error directory. *)
Theorem forwardOne_without_sender
    (m : Machine) (parkingDir emlName : string) (rest : list string) :
  emlParkingDir (self m) = Some parkingDir ->
  emlParkingQueue (self m) = emlName :: rest ->
  emlName <> "" ->
  mailSender (self m) = None ->
  forwardOne simpleParser sendMail m
  = (FoError (mkError "Cannot forward, <mailSender> is not ready"),
     mkMachine (set_emlParkingQueue (rest ++ [emlName]) (self m)) (disk m)
       (trace m ++
        [Log DEBUG ("Forwarding " +:+ emlName);
         OnForwarding (path_str (mkPath parkingDir emlName));
         Log ERROR "Cannot forward, <mailSender> is not ready"])).
Proof.
  intros Hdir Hq Hne Hsender. unfold forwardOne, forward. run.
  rewrite Hdir, Hq. cbn [head tail]. run.
  assert (Js.truthy emlName = true) as -> by by destruct emlName.
  run.
  assert (mailSender (set_emlParkingQueue rest (self m)) = None) as ->
    by by destruct (self m).
  run. rewrite <- !app_assoc. do 2 f_equal;
    by destruct (self m) as [? ? ? ? [] ? ? ? ? ? ?].
Qed.

(** X12.  After [suspendSender(true)] any number of firings of the
    interval timer leaves the machine exactly as it is: the instance and
    the disk are unchanged, nothing is logged and nothing is submitted. *)
Theorem ticks_while_paused (n : nat) (m : Machine) :
  let paused := (suspendSender true m).2 in
  ticks simpleParser sendMail n paused = (tt, paused).
Proof.
  cbv zeta. rewrite suspendSender_run. cbn [snd].
  set (m' := mkMachine _ _ _).
  assert (senderPaused (self m') = true) as Hpaused by done.
  clearbody m'. induction n as [|n IH]; [done|].
  cbn [ticks]. rewrite run_bind.
  assert (tick simpleParser sendMail m' = (tt, m')) as ->.
  { unfold tick. run. by rewrite Hpaused. }
  exact IH.
Qed.

(** A firing of the timer outside a pause and a scan is one
    [forwardOne]; during a scan with a non-empty direct queue it is a
    warning. *)
Lemma tick_run (m : Machine) :
  senderPaused (self m) = false ->
  (tick simpleParser sendMail m).2
  = if emlScanning (self m) && bool_decide (0 < length (emlDirectQueue (self m)))%nat
    then mkMachine (self m) (disk m)
           (trace m ++ [Log WARNING "Storage scanning in progress, wait"])
    else (forwardOne simpleParser sendMail m).2.
Proof.
  intros Hpaused. unfold tick. run. rewrite Hpaused. run.
  by destruct (emlScanning (self m) && _).
Qed.

End RelayPaths.

(** ** The sender: what [forwardEml] submits *)

Section Submission.

Variable simpleParser : list Byte.byte -> Error + option ParsedMail.
Variable sendMail : MailOptions -> Error + SentInfo.

(** X13.  [forwardEml] is fulfilled only if the sender is ready with a
    transporter, the path names a file that is not a directory and parses
    with a [from] address and truthy recipients, and the transport
    accepted the message composed from the parsed one: the texts of
    [from] and [to], the subject, the text, the html when it is not empty,
    and the attachments.  That message is the only one submitted. *)
Theorem forwardEml_fulfilled_only_if
    (ms : DMailSender) (f : Path) (m : Machine) (info : SentInfo) :
  (forwardEml simpleParser sendMail ms f m).1 = inr info ->
  DStatus.ready (sender_status ms) = true /\ transporter ms = true /\
  exists file mail parsedFrom recipients,
    Fs.lookup_file f (disk m) = Some file /\ isDirectory file = false /\
    simpleParser (data file) = inr (Some mail) /\
    from mail = Some parsedFrom /\
    convertAddress (to mail) = Some recipients /\
    recipients_truthy (Some recipients) = true /\
    let mailOptions :=
      mkMailOptions (text parsedFrom) recipients (subject mail) (body_text mail)
        (if truthy_text (body_html mail) then body_html mail else None)
        (attachments mail) in
    sendMail mailOptions = inr info /\
    List.filter is_submission
      (events_since m (forwardEml simpleParser sendMail ms f m).2)
    = [SendMail mailOptions].
Proof.
  unfold forwardEml. run.
  destruct (DStatus.ready (sender_status ms)); run; [|done].
  destruct (Fs.lookup_file f (disk m)) as [file|]; run; [|done].
  destruct (isDirectory file) eqn:Hdir; run; [done|].
  destruct (transporter ms); run; [|done].
  destruct (simpleParser (data file)) as [err|[mail|]] eqn:Hparse; run;
    [done| |done].
  destruct (from mail) as [parsedFrom|] eqn:Hfrom; run; [|done].
  destruct (convertAddress (to mail)) as [recipients|] eqn:Hto; run; [|done].
  destruct (recipients_truthy (Some recipients)) eqn:Htruthy; run; [|done].
  intros Hsent. do 2 (split; [done|]).
  exists file, mail, parsedFrom, recipients. repeat split; try done.
  by rewrite <- !app_assoc, events_since_app.
Qed.

(** X14.  The early refusals of [forwardEml], each without any
    submission: a sender that is not ready gives its status message, a
    missing path gives "does not exist", a directory gives "is not a
    file", a sender without transporter gives "this.transporter is not
    ready", and a rejection of the parser is passed on as it is. *)
Theorem forwardEml_refusals (ms : DMailSender) (f : Path) (m : Machine) :
  let out := forwardEml simpleParser sendMail ms f m in
  let refused (msg : string) :=
    out.1 = inl (mkError msg) /\
    List.filter is_submission (events_since m out.2) = [] in
  (DStatus.ready (sender_status ms) = false ->
   refused (DStatus.message (sender_status ms))) /\
  (DStatus.ready (sender_status ms) = true ->
   (Fs.lookup_file f (disk m) = None ->
    refused (path_str f +:+ " does not exist")) /\
   (forall file,
      Fs.lookup_file f (disk m) = Some file ->
      (isDirectory file = true -> refused (path_str f +:+ " is not a file")) /\
      (isDirectory file = false ->
       (transporter ms = false -> refused "this.transporter is not ready") /\
       (transporter ms = true ->
        forall err, simpleParser (data file) = inl err ->
                    refused (message err))))).
Proof.
  cbv zeta. unfold forwardEml. run. split.
  - intros ->. run. by rewrite events_since_app.
  - intros ->. run. split.
    + intros ->. run. by rewrite events_since_app.
    + intros file ->. split; intros ->; run.
      * by rewrite events_since_app.
      * split; intros ->; run; [by rewrite events_since_app|].
        intros [msg] ->. run.
        by rewrite <- !app_assoc, events_since_app.
Qed.

End Submission.

(** ** Availability of the storage *)

(** Every run of [isStorageReady]. *)
Lemma isStorageReady_run (checkExisting : bool) (m : Machine) :
  exists l,
    isStorageReady checkExisting m
    = (if checkExisting then storage_present (disk m) (dirs (self m))
       else all_defined (dirs (self m)),
       mkMachine
         (if checkExisting then set_dirs (checked_dirs (disk m) (dirs (self m))) (self m)
          else self m)
         (disk m) (trace m ++ l)) /\
    List.filter is_answer l = [] /\ List.filter is_fs_request l = [] /\
    List.filter is_submission l = [].
Proof.
  unfold isStorageReady, storage_present, checked_dirs, all_defined,
    emlParkingDir, emlDirectDir, emlErrorDir, emlParkingBackupDir,
    emlDirectBackupDir. run.
  destruct (dirs (self m)) as [[p|] [d|] [e|] [pb|] [db|]] eqn:Hdirs;
    cbn [parkingDir directDir errorDir parkingBackupDir directBackupDir
         dir_present kept]; run;
    destruct checkExisting; run;
    try (eexists; split;
     [rewrite <- ?app_assoc, ?andb_false_r;
      first [reflexivity | rewrite <- Hdirs, set_dirs_id; reflexivity]
     |done]).
  exists []. by rewrite app_nil_r, machine_eta.
Qed.

(** X15.  [isStorageReady(true)] answers whether the five directory
    fields are defined and on the disk, and forgets the fields whose
    directory is gone.  Once it has answered false the storage stays
    unavailable to every later check, with or without [checkExisting] and
    whatever the disk has become: a directory created again is not seen. *)
Theorem isStorageReady_loss_is_permanent (m : Machine) :
  let out := isStorageReady true m in
  out.1 = storage_present (disk m) (dirs (self m)) /\
  disk out.2 = disk m /\
  (out.1 = false ->
   forall (checkExisting : bool) (later : Machine),
     self later = self out.2 ->
     (isStorageReady checkExisting later).1 = false).
Proof.
  cbv zeta. destruct (isStorageReady_run true m) as (l & -> & _).
  cbn [fst snd self disk]. do 2 (split; [done|]).
  intros Hlost checkExisting later Hself.
  destruct (isStorageReady_run checkExisting later) as (l' & -> & _).
  cbn [fst]. rewrite Hself.
  assert (all_defined (checked_dirs (disk m) (dirs (self m))) = false) as Hdef.
  { revert Hlost. unfold storage_present, checked_dirs, all_defined.
    destruct (dirs (self m)) as [[p|] [d|] [e|] [pb|] [db|]];
      cbn [parkingDir directDir errorDir parkingBackupDir directBackupDir
           dir_present kept]; try done.
    destruct (Fs.existsSync p (disk m)), (Fs.existsSync d (disk m)),
      (Fs.existsSync e (disk m)), (Fs.existsSync pb (disk m)),
      (Fs.existsSync db (disk m)); done. }
  destruct checkExisting; [|by destruct (self m)].
  revert Hdef. generalize (checked_dirs (disk m) (dirs (self m))).
  intros d Hdef.
  assert (dirs (set_dirs d (self m)) = d) as -> by by destruct (self m).
  revert Hdef. unfold storage_present, all_defined.
  destruct d as [[?|] [?|] [?|] [?|] [?|]];
    cbn [parkingDir directDir errorDir parkingBackupDir directBackupDir
         dir_present]; try done; intros _;
    repeat match goal with
           | |- context [Fs.existsSync ?a ?b] => destruct (Fs.existsSync a b)
           end; done.
Qed.

Lemma checked_dirs_present (fs : FS) (d : EmlDirs) :
  storage_present fs d = true -> checked_dirs fs d = d.
Proof.
  unfold storage_present, checked_dirs, all_defined.
  destruct d as [[p|] [di|] [e|] [pb|] [db|]];
    cbn [parkingDir directDir errorDir parkingBackupDir directBackupDir
         dir_present kept]; rewrite ?andb_false_r; try done.
  intros H. repeat (apply andb_prop in H as [H ?]).
  by repeat match goal with H : Fs.existsSync _ _ = true |- _ => rewrite H; clear H end.
Qed.

Lemma scanStorage_unavailable_run (m : Machine) :
  storage_present (disk m) (dirs (self m)) = false ->
  let async := scanStorageAsync m in
  let sync := scanStorageSync m in
  async.1 = inl (mkError "Parking storage folder not available") /\
  sync.1 = inr None /\
  sync.2 = async.2 /\
  self async.2
  = set_status (DStatus.mk false "Parking storage folder not available")
      (set_queues (mkStorage [] [] [] [] [])
         (set_dirs (checked_dirs (disk m) (dirs (self m))) (self m))) /\
  disk async.2 = disk m /\
  List.filter is_fs_request (events_since m async.2) = [].
Proof.
  intros Hgone. cbv zeta.
  set (m0 := mkMachine (self m) (disk m)
               (trace m ++ [Log DEBUG "Scanning eml files..."])).
  destruct (isStorageReady_run true m0) as (l & Hrun & _ & Hf & _).
  cbn [self disk trace m0] in Hrun. rewrite Hgone in Hrun.
  unfold scanStorageAsync, scanStorageSync, storage_unavailable. run.
  fold m0. rewrite Hrun. run. repeat split.
  rewrite <- !app_assoc, events_since_app, !List.filter_app, Hf. done.
Qed.

(** X16.  When one of the five directories is undefined or gone, a
    rescan empties the five queues, marks the instance not ready and reads
    no directory: the asynchronous scan is rejected with "Parking storage
    folder not available", the synchronous one returns [undefined], and both
    leave the same state. *)
Theorem scan_storage_unavailable (m : Machine) :
  storage_present (disk m) (dirs (self m)) = false ->
  let async := scanStorageAsync m in
  let sync := scanStorageSync m in
  async.1 = inl (mkError "Parking storage folder not available") /\
  sync.1 = inr None /\
  sync.2 = async.2 /\
  self async.2
  = set_status (DStatus.mk false "Parking storage folder not available")
      (set_queues (mkStorage [] [] [] [] [])
         (set_dirs (checked_dirs (disk m) (dirs (self m))) (self m))) /\
  disk async.2 = disk m /\
  List.filter is_fs_request (events_since m async.2) = [].
Proof. intros. by apply scanStorage_unavailable_run. Qed.

Lemma scanStorage_busy_run (m : Machine) :
  storage_present (disk m) (dirs (self m)) = true ->
  emlScanning (self m) = true ->
  let async := scanStorageAsync m in
  let sync := scanStorageSync m in
  async.1 = inl (mkError "Already scanning...") /\
  sync.1 = inr None /\
  sync.2 = async.2 /\
  self async.2 = self m /\ disk async.2 = disk m.
Proof.
  intros Hpresent Hscan. cbv zeta.
  set (m0 := mkMachine (self m) (disk m)
               (trace m ++ [Log DEBUG "Scanning eml files..."])).
  destruct (isStorageReady_run true m0) as (l & Hrun & _).
  cbn [self disk trace m0] in Hrun.
  rewrite Hpresent, (checked_dirs_present _ _ Hpresent), set_dirs_id in Hrun.
  unfold scanStorageAsync, scanStorageSync. run.
  fold m0. rewrite Hrun. run. rewrite Hscan. run. done.
Qed.

(** X17.  While a scan is in progress a second scan is refused before
    any directory is read: the asynchronous scan is rejected with "Already
    scanning...", the synchronous one returns [undefined], and the queues
    are those of before. *)
Theorem scan_while_scanning (m : Machine) :
  storage_present (disk m) (dirs (self m)) = true ->
  emlScanning (self m) = true ->
  let async := scanStorageAsync m in
  let sync := scanStorageSync m in
  async.1 = inl (mkError "Already scanning...") /\
  sync.1 = inr None /\
  sync.2 = async.2 /\
  self async.2 = self m /\ disk async.2 = disk m.
Proof. intros. by apply scanStorage_busy_run. Qed.

(** ** A stored message and the next rescan *)

Lemma append_assoc (x y z : string) : (x +:+ y) +:+ z = x +:+ y +:+ z.
Proof.
  induction x as [|c x IH]; [done|].
  change (String c ((x +:+ y) +:+ z) = String c (x +:+ y +:+ z)).
  by rewrite IH.
Qed.

Lemma ends_with_app (a suffix : string) :
  Js.ends_with suffix (a +:+ suffix) = true.
Proof. rewrite ends_with_spec. by exists a. Qed.

(** Every name given by [saveEmailToDisk] passes the filter of the scans. *)
Lemma emlFileName_has_eml_name (now : Date) (session : SMTPServerSession) :
  has_eml_name (emlFileName now session) = true.
Proof.
  unfold has_eml_name, emlFileName. cbv zeta.
  generalize (Js.keep_digits (toISOString now)). intros a.
  rewrite <- !append_assoc, ends_with_app. apply orb_true_r.
Qed.

Lemma listed_elem (l : list Dirent) (item : Dirent) :
  In item l -> isDirectory item = false -> has_eml_name (name item) = true ->
  In (name item) (listed l).
Proof.
  intros Hin Hdir Hname. unfold listed. apply in_map, filter_In.
  by rewrite Hdir, Hname.
Qed.

(** The listing of the directory after a write holds the file. *)
Lemma write_listing (p : Path) (bytes : list Byte.byte) (fs fs' : FS) :
  Fs.write p bytes fs = inr fs' ->
  exists l',
    fs' = <[dirname p := l']> fs /\ is_Some (fs !! dirname p) /\
    In (mkDirent (basename p) false bytes) l'.
Proof.
  unfold Fs.write. destruct (fs !! dirname p) as [l|]; [|done].
  destruct (Fs.find_entry (basename p) l) as [e|].
  - destruct (isDirectory e); [done|]. intros [= <-].
    eexists. split; [done|]. split; [done|]. apply in_app_iff. right. by left.
  - intros [= <-].
    eexists. split; [done|]. split; [done|]. apply in_app_iff. right. by left.
Qed.

(** The asynchronous scan with the five directories on the disk. *)
Lemma scanStorageAsync_present
    (m : Machine) (p d e pb db : string) (lp ld le lpb ldb : list Dirent) :
  dirs (self m) = mkDirs (Some p) (Some d) (Some e) (Some pb) (Some db) ->
  disk m !! p = Some lp -> disk m !! d = Some ld -> disk m !! e = Some le ->
  disk m !! pb = Some lpb -> disk m !! db = Some ldb ->
  emlScanning (self m) = false ->
  exists l,
    scanStorageAsync m
    = (inr (mkStorage (listed lp) (listed ld) (listed le) (listed lpb)
              (listed ldb)),
       mkMachine
         (set_queues (mkStorage (listed lp) (listed ld) (listed le)
                        (listed lpb) (listed ldb)) (self m))
         (disk m) (trace m ++ l)).
Proof.
  intros Hdirs Hp Hd He Hpb Hdb Hscan.
  pose proof (isStorageReady_present
                (mkMachine (self m) (disk m)
                   (trace m ++ [Log DEBUG "Scanning eml files..."]))
                p d e pb db Hdirs) as Hready.
  cbn [self disk trace] in Hready.
  specialize (Hready (ltac:(by rewrite Hp)) (ltac:(by rewrite Hd))
                (ltac:(by rewrite He)) (ltac:(by rewrite Hpb))
                (ltac:(by rewrite Hdb))).
  unfold scanStorageAsync. run. rewrite Hready. run. rewrite Hscan. run.
  unfold emlParkingDir, emlDirectDir, emlErrorDir, emlParkingBackupDir,
    emlDirectBackupDir. rewrite Hdirs.
  cbn [parkingDir directDir errorDir parkingBackupDir directBackupDir
         asserted default].
  rewrite (findFiles_eml p _ lp), (findFiles_eml d _ ld),
    (findFiles_eml e _ le), (findFiles_eml pb _ lpb),
    (findFiles_eml db _ ldb) by done.
  run. eexists. rewrite <- !app_assoc. do 2 f_equal.
  destruct (self m); simpl in *; by subst.
Qed.

Section Durability.

Variable simpleParser : list Byte.byte -> Error + option ParsedMail.
Variable sendMail : MailOptions -> Error + SentInfo.

(** X18.  A message acknowledged in timed mode is found again by the
    next rescan: with the five directories on the disk, the scan that
    follows the acknowledgement returns a parking list that holds the
    stored name, and so does the parking queue it installs. *)
Theorem stored_message_is_rescanned
    (now : Date) (stream : list Byte.byte) (session : SMTPServerSession)
    (m : Machine) (p d e pb db : string) (fs' : FS) :
  DStatus.ready (status (self m)) = true ->
  listenerPaused (self m) = false ->
  0 < timerIntervalMs (self m) ->
  dirs (self m) = mkDirs (Some p) (Some d) (Some e) (Some pb) (Some db) ->
  is_Some (disk m !! d) -> is_Some (disk m !! e) ->
  is_Some (disk m !! pb) -> is_Some (disk m !! db) ->
  emlScanning (self m) = false ->
  Fs.write (mkPath p (emlFileName now session)) stream (disk m) = inr fs' ->
  let stored := (onData simpleParser sendMail now stream session m).2 in
  let scan := scanStorageAsync stored in
  List.filter is_answer (events_since m stored) = [Callback None] /\
  exists snapshot,
    scan.1 = inr snapshot /\
    In (emlFileName now session) (parking snapshot) /\
    emlParkingQueue (self scan.2) = parking snapshot.
Proof.
  intros Hready Hlistener Htimer Hdirs Hd He Hpb Hdb Hscan Hwrite stored scan.
  assert (emlParkingDir (self m) = Some p) as Hp
    by (unfold emlParkingDir; by rewrite Hdirs).
  subst scan stored.
  rewrite (onData_parking_run simpleParser sendMail now stream session m p fs')
    by done.
  cbn [snd]. rewrite events_since_app. split; [done|].
  destruct (write_listing _ _ _ _ Hwrite) as (l' & -> & _ & Hin).
  cbn [dirname basename] in *.
  assert (forall x, is_Some (disk m !! x) ->
                    is_Some (<[p := l']> (disk m) !! x)) as Hkeep.
  { intros x Hx. destruct (decide (p = x)) as [->|Hne].
    - by rewrite lookup_insert_eq.
    - by rewrite lookup_insert_ne. }
  destruct (Hkeep d Hd) as [ld Hld], (Hkeep e He) as [le Hle],
    (Hkeep pb Hpb) as [lpb Hlpb], (Hkeep db Hdb) as [ldb Hldb].
  set (m1 := mkMachine _ _ _).
  assert (dirs (self m1) = mkDirs (Some p) (Some d) (Some e) (Some pb) (Some db))
    as H1 by (subst m1; exact Hdirs).
  assert (disk m1 !! p = Some l') as H2
    by (subst m1; cbn [disk]; by rewrite lookup_insert_eq).
  assert (emlScanning (self m1) = false) as H3 by (subst m1; exact Hscan).
  destruct (scanStorageAsync_present m1 p d e pb db l' ld le lpb ldb
              H1 H2 Hld Hle Hlpb Hldb H3) as (l & ->).
  eexists. split; [reflexivity|]. split; [|done]. cbn [parking].
  apply (listed_elem l' (mkDirent (emlFileName now session) false stream));
    [done|done|]. apply emlFileName_has_eml_name.
Qed.

End Durability.

(** ** The status query and the control routes *)

Lemma checked_dirs_lost (fs fs2 : FS) (d : EmlDirs) :
  storage_present fs d = false ->
  storage_present fs2 (checked_dirs fs d) = false.
Proof.
  unfold storage_present, checked_dirs, all_defined.
  destruct d as [[p|] [di|] [e|] [pb|] [db|]];
    cbn [parkingDir directDir errorDir parkingBackupDir directBackupDir
         dir_present kept]; intros H;
    try (repeat match goal with
                | |- context [Fs.existsSync ?a fs2] => destruct (Fs.existsSync a fs2)
                end; done).
  destruct (Fs.existsSync p fs), (Fs.existsSync di fs), (Fs.existsSync e fs),
    (Fs.existsSync pb fs), (Fs.existsSync db fs); try done;
    cbn [dir_present];
    repeat match goal with
           | |- context [Fs.existsSync ?a fs2] => destruct (Fs.existsSync a fs2)
           end; done.
Qed.

(** Every run of [getSummary]: only the directory fields can change. *)
Lemma getSummary_run (m : Machine) :
  exists l,
    (getSummary m).2
    = mkMachine (set_dirs (checked_dirs (disk m) (dirs (self m))) (self m))
        (disk m) (trace m ++ l) /\
    StorageStatus.ready (storage (getSummary m).1)
    = storage_present (disk m) (dirs (self m)) /\
    List.filter is_answer l = [] /\ List.filter is_fs_request l = [] /\
    List.filter is_submission l = [].
Proof.
  destruct (isStorageReady_run true m) as (l & Hrun & Hl).
  unfold getSummary. run. rewrite Hrun. run. by exists l.
Qed.

Lemma showSummary_run (m : Machine) :
  exists l,
    showSummary m
    = (tt, mkMachine (set_dirs (checked_dirs (disk m) (dirs (self m))) (self m))
             (disk m) (trace m ++ l)) /\
    List.filter is_answer l = [] /\ List.filter is_fs_request l = [] /\
    List.filter is_submission l = [].
Proof.
  destruct (getSummary_run m) as (l & Hrun & _ & Ha & Hf & Hs).
  unfold showSummary. run. rewrite Hrun. run.
  assert (listenerPaused (set_dirs (checked_dirs (disk m) (dirs (self m))) (self m))
          = listenerPaused (self m)) as -> by by destruct (self m).
  assert (senderPaused (set_dirs (checked_dirs (disk m) (dirs (self m))) (self m))
          = senderPaused (self m)) as -> by by destruct (self m).
  destruct (listenerPaused (self m)), (senderPaused (self m)); run;
    (eexists; split; [rewrite <- !app_assoc; reflexivity|]);
    by rewrite !List.filter_app, Ha, Hf, Hs.
Qed.

(** X19.  The status query is not read-only.  It reports the storage
    ready exactly when the five directories are defined and on the disk,
    and it forgets the fields of those that are gone, leaving everything
    else (queues, status record, flags, disk) as it was.  After it has
    reported the storage not ready, every rescan is rejected with "Parking
    storage folder not available", whatever the disk has become. *)
Theorem status_query_forgets_storage (m : Machine) :
  let out := getSummary m in
  StorageStatus.ready (storage out.1) = storage_present (disk m) (dirs (self m)) /\
  ListenerStatus.running (listener out.1) = negb (listenerPaused (self m)) /\
  SenderStatus.running (sender out.1) = negb (senderPaused (self m)) /\
  self out.2 = set_dirs (checked_dirs (disk m) (dirs (self m))) (self m) /\
  disk out.2 = disk m /\
  (StorageStatus.ready (storage out.1) = false ->
   forall later : Machine,
     self later = self out.2 ->
     (scanStorageAsync later).1
     = inl (mkError "Parking storage folder not available")).
Proof.
  cbv zeta. destruct (getSummary_run m) as (l & Hrun & Hready & _).
  rewrite Hrun, Hready. cbn [self disk]. split; [done|].
  split; [by unfold getSummary; run|]. split; [by unfold getSummary; run|].
  do 2 (split; [done|]). intros Hlost later Hself.
  apply scanStorage_unavailable_run. rewrite Hself.
  assert (dirs (set_dirs (checked_dirs (disk m) (dirs (self m))) (self m))
          = checked_dirs (disk m) (dirs (self m))) as -> by by destruct (self m).
  by apply checked_dirs_lost.
Qed.


(** X21.  The storage route answers 400 with the message of the scan when
    the storage is unavailable or a scan is already in progress. *)
Theorem storage_route_refused
    (port : Z) (apiKey : string) (req : Request) (m : Machine) :
  method req = GET ->
  url req = "/api/remailer/query/storage" ->
  let out := startRemailerControlApi port apiKey req m in
  (storage_present (disk m) (dirs (self m)) = false ->
   out.1 = mkResponse 400 (JsonText "Parking storage folder not available")) /\
  (storage_present (disk m) (dirs (self m)) = true ->
   emlScanning (self m) = true ->
   out.1 = mkResponse 400 (JsonText "Already scanning...") /\
   queues (self out.2) = queues (self m)).
Proof.
  intros Hmethod Hurl. cbv zeta.
  unfold startRemailerControlApi. rewrite Hmethod, Hurl.
  change (String.eqb "/api/remailer/query/storage" "/api/remailer/query/status")
    with false.
  change (String.eqb "/api/remailer/query/storage" "/api/remailer/query/storage")
    with true.
  cbv iota. run.
  set (m0 := mkMachine (self m) (disk m) _). split.
  - intros Hgone.
    destruct (scanStorage_unavailable_run m0 Hgone) as (Hres & _).
    destruct (scanStorageAsync m0) as [res m1].
    cbn [fst snd] in Hres |- *. by subst res.
  - intros Hpresent Hscan.
    destruct (scanStorage_busy_run m0 Hpresent Hscan)
      as (Hres & _ & _ & Hself & _).
    destruct (scanStorageAsync m0) as [res m1].
    cbn [fst snd] in Hres, Hself |- *. subst res. run.
    split; [reflexivity|]. by rewrite Hself.
Qed.

(** ** The key check of the first bootstrap *)

Lemma rev_app_rev (a b : string) : String.rev_app a b = String.rev a +:+ b.
Proof. unfold String.rev. by rewrite rev_app_app. Qed.

Lemma rev_append (a b : string) :
  String.rev (a +:+ b) = String.rev b +:+ String.rev a.
Proof.
  unfold String.rev. generalize "" at 1 3 as acc.
  induction a as [|c a IH]; intros acc.
  - change ("" +:+ b) with b. cbn [String.rev_app].
    by rewrite rev_app_app.
  - change (String c a +:+ b) with (String c (a +:+ b)).
    cbn [String.rev_app]. apply IH.
Qed.

Lemma rev_rev (a : string) : String.rev (String.rev a) = a.
Proof.
  induction a as [|c a IH]; [done|].
  change (String c a) with (String c "" +:+ a) at 1.
  by rewrite rev_append, rev_append, IH.
Qed.

Lemma no_space_app (a b : string) :
  no_space (a +:+ b) = no_space a && no_space b.
Proof.
  induction a as [|c a IH]; [done|].
  change (String c a +:+ b) with (String c (a +:+ b)).
  cbn [no_space]. by rewrite IH, andb_assoc.
Qed.

Lemma no_space_rev (a : string) : no_space (String.rev a) = no_space a.
Proof.
  induction a as [|c a IH]; [done|].
  change (String c a) with (String c "" +:+ a) at 1.
  rewrite rev_append, no_space_app, IH. cbn [no_space].
  change (String.rev (String c "")) with (String c "").
  cbn [no_space]. by rewrite andb_true_r, andb_comm.
Qed.

Lemma all_space_rev (a : string) : all_space (String.rev a) = all_space a.
Proof.
  assert (forall x y, all_space (x +:+ y) = all_space x && all_space y) as Happ.
  { intros x y. induction x as [|c x IH]; [done|].
    change (String c x +:+ y) with (String c (x +:+ y)).
    cbn [all_space]. by rewrite IH, andb_assoc. }
  induction a as [|c a IH]; [done|].
  change (String c a) with (String c "" +:+ a) at 1.
  rewrite rev_append, Happ, IH.
  change (String.rev (String c "")) with (String c "").
  cbn [all_space]. by rewrite andb_true_r, andb_comm.
Qed.

Lemma trim_start_all_space (a b : string) :
  all_space a = true -> Js.trim_start (a +:+ b) = Js.trim_start b.
Proof.
  induction a as [|c a IH]; [done|].
  change (String c a +:+ b) with (String c (a +:+ b)).
  cbn [all_space Js.trim_start]. intros [Hc Ha]%andb_true_iff.
  rewrite Hc. by apply IH.
Qed.

Lemma trim_start_no_space (k b : string) :
  no_space k = true -> k <> "" -> Js.trim_start (k +:+ b) = k +:+ b.
Proof.
  destruct k as [|c k]; [done|]. intros Hk _.
  change (String c k +:+ b) with (String c (k +:+ b)).
  cbn [no_space] in Hk. apply andb_true_iff in Hk as [Hc _].
  cbn [Js.trim_start]. by destruct (Ascii.is_space c).
Qed.

Lemma rev_not_empty (k : string) : k <> "" -> String.rev k <> "".
Proof.
  intros Hk Hrev. apply Hk. by rewrite <- (rev_rev k), Hrev.
Qed.

(** [trim] removes white space around a key that has none inside. *)
Lemma trim_padded (pre k post : string) :
  all_space pre = true -> all_space post = true ->
  no_space k = true -> k <> "" ->
  Js.trim (pre +:+ k +:+ post) = k.
Proof.
  intros Hpre Hpost Hk Hne. unfold Js.trim.
  rewrite (trim_start_all_space _ _ Hpre), (trim_start_no_space _ _ Hk Hne).
  rewrite rev_append, trim_start_all_space by by rewrite all_space_rev.
  rewrite <- (append_nil_r (String.rev k)).
  rewrite trim_start_no_space, append_nil_r, rev_rev;
    [done|by rewrite no_space_rev|by apply rev_not_empty].
Qed.

(** X22.  The key check of the first bootstrap lets a request through
    when the submitted key is the configured one with white space around
    it, provided the configured key is not empty and has no white space
    of its own; a request without key, or with an empty one, is answered
    401 "Access denied". *)
Theorem checkApiKey_padded_key (apiKey pre post : string) (req : Request) :
  no_space apiKey = true -> apiKey <> "" ->
  all_space pre = true -> all_space post = true ->
  (query req !! "api_key" = Some (pre +:+ apiKey +:+ post) ->
   checkApiKey apiKey req = None) /\
  (query req !! "api_key" = None \/ query req !! "api_key" = Some "" ->
   checkApiKey apiKey req = Some (mkResponse 401 (JsonMessage "Access denied"))).
Proof.
  intros Hk Hne Hpre Hpost. unfold checkApiKey. split.
  - intros ->. rewrite (trim_padded _ _ _ Hpre Hpost Hk Hne), String.eqb_refl.
    assert (Js.truthy (pre +:+ apiKey +:+ post) = true) as ->; [|done].
    destruct pre as [|c pre]; [|done].
    change ("" +:+ apiKey +:+ post) with (apiKey +:+ post).
    by destruct apiKey.
  - by intros [-> | ->].
Qed.

(** X23.  Behind a granted key check the control route of the first
    bootstrap always answers 200 "done", also without any parameter.  A
    query parameter that is present and not empty sets its flag to true
    when its text is exactly "true" and to false for any other text; queues,
    status record and disk are unchanged. *)
Theorem startAdminAPI_control
    (port : Z) (apiKey : string) (req : Request) (m : Machine) :
  checkApiKey apiKey req = None ->
  method req = POST ->
  url req = "/api/remailer/control" ->
  let out := startAdminAPI port apiKey req m in
  out.1 = mkResponse 200 (JsonText "done") /\
  senderPaused (self out.2)
  = from_option is_true_text (senderPaused (self m))
      (param (query req) "suspend_sender") /\
  listenerPaused (self out.2)
  = from_option is_true_text (listenerPaused (self m))
      (param (query req) "suspend_listener") /\
  queues (self out.2) = queues (self m) /\
  status (self out.2) = status (self m) /\
  disk out.2 = disk m.
Proof.
  intros Hkey Hmethod Hurl. cbv zeta.
  unfold startAdminAPI. rewrite Hkey, Hmethod, Hurl.
  change (String.eqb "/api/remailer/control" "/api/remailer/control") with true.
  cbv iota. run.
  destruct (param (query req) "suspend_sender") as [vs|];
    destruct (param (query req) "suspend_listener") as [vl|];
    run; rewrite ?suspendSender_run; run; rewrite ?suspendListener_run; run;
    match goal with
    | |- context [showSummary ?m0] =>
        destruct (showSummary_run m0) as (l & -> & _)
    end;
    run; cbn [from_option]; by destruct (self m).
Qed.

(** ** The life cycle of the sender *)

Section SenderLifeCycle.

Variable simpleParser : list Byte.byte -> Error + option ParsedMail.
Variable sendMail : MailOptions -> Error + SentInfo.

(** X24.  [close] drops the transporter and leaves the status alone: a
    sender initialised with a host and then closed still reports ready,
    its [sendMail] is fulfilled with [undefined] and [forwardEml] is
    rejected, for every message and file, and neither submits anything. *)
Theorem sender_closed_still_ready
    (config : DMailSenderConfig.t) (ms0 : DMailSender) (m0 : Machine) :
  truthy_text (DMailSenderConfig.smtpHost config) = true ->
  let ms := Sender.close (Sender.init config ms0 m0).1 in
  Sender.isReady (Sender.init config ms0 m0).1 = true /\
  Sender.isReady ms = true /\
  (forall message m, Sender.sendMail sendMail ms message m = (inr None, m)) /\
  (forall f m,
     let out := forwardEml simpleParser sendMail ms f m in
     (exists msg, out.1 = inl (mkError msg)) /\
     List.filter is_submission (events_since m out.2) = []).
Proof.
  intros Hhost. cbv zeta. unfold Sender.init. run. rewrite Hhost. run.
  unfold Sender.close, Sender.isReady, Sender.sendMail.
  cbn [sender_status transporter DStatus.ready negb].
  do 3 (split; [done|]). intros f m. unfold forwardEml.
  cbn [sender_status transporter DStatus.ready negb]. run.
  destruct (Fs.lookup_file f (disk m)) as [file|]; run;
    [|by rewrite events_since_app; eauto].
  destruct (isDirectory file); run; by rewrite events_since_app; eauto.
Qed.

(** X25.  Without a host in its configuration [init] leaves the sender
    not ready, and both [sendMail] and [forwardEml] are rejected with "no
    <smtpHost> set in config" without submitting anything. *)
Theorem sender_without_host
    (config : DMailSenderConfig.t) (ms0 : DMailSender) (m0 : Machine) :
  truthy_text (DMailSenderConfig.smtpHost config) = false ->
  let ms := (Sender.init config ms0 m0).1 in
  Sender.isReady ms = false /\
  (forall message m,
     let out := Sender.sendMail sendMail ms message m in
     out.1 = inl (mkError "no <smtpHost> set in config") /\
     List.filter is_submission (events_since m out.2) = []) /\
  (forall f m,
     let out := forwardEml simpleParser sendMail ms f m in
     out.1 = inl (mkError "no <smtpHost> set in config") /\
     List.filter is_submission (events_since m out.2) = []).
Proof.
  intros Hhost. cbv zeta. unfold Sender.init. run. rewrite Hhost. run.
  unfold Sender.isReady, Sender.sendMail, forwardEml.
  cbn [sender_status transporter DStatus.ready DStatus.message negb].
  split; [done|].
  split; intros ? m; run;
    cbn [sender_status transporter DStatus.ready DStatus.message negb];
    by rewrite events_since_app.
Qed.

End SenderLifeCycle.

(** ** Runs of the further properties on the sample environments *)

Lemma onData_parking_stored_witness :
  let m := Sample.machine Sample.remailer [] in
  let out :=
    onData Scenario.letter Sample.accepting Sample.now [] Sample.session m in
  emlParkingQueue (self out.2) = [emlFileName Sample.now Sample.session] /\
  List.filter is_answer (events_since m out.2) = [Callback None].
Proof.
  intros m out. subst out.
  rewrite (onData_parking_stored Scenario.letter Sample.accepting Sample.now []
             Sample.session m "/spool/eml-parking" _
             eq_refl eq_refl eq_refl eq_refl eq_refl).
  split; reflexivity.
Defined.

Lemma onData_rejected_before_storing_witness :
  let m :=
    Sample.machine (set_status (DStatus.mk false "down") Sample.remailer) [] in
  exists err : Error,
    onData Scenario.letter Sample.accepting Sample.now [] Sample.session m
    = (tt, mkMachine (self m) (disk m)
             (trace m ++ [OnReceiving Sample.session; PipeNull Sample.session;
                          Callback (Some err); OnReject Sample.session err])).
Proof.
  intros m. apply onData_rejected_before_storing. left. reflexivity.
Defined.



Lemma onData_direct_forward_failed_witness :
  let m := Sample.machine Scenario.direct [] in
  let out :=
    onData Scenario.letter Sample.refusing Sample.now [] Sample.session m in
  List.filter is_answer (events_since m out.2)
  = [Callback (Some Sample.refused);
     OnReject Sample.session Sample.refused].
Proof.
  intros m out. subst out.
  destruct (onData_direct_forward_failed Scenario.letter Sample.refusing
              Sample.now [] Sample.session m "/spool/eml-direct" _
              Sample.mailSender Sample.refused eq_refl eq_refl ltac:(reflexivity)
              eq_refl eq_refl eq_refl eq_refl eq_refl)
    as (l & Hrun & Hanswers & _).
  rewrite Hrun. cbn [snd disk]. rewrite events_since_app. exact Hanswers.
Defined.

Lemma forwardOne_parking_unavailable_witness :
  let m :=
    Sample.machine
      (set_dirs (mkDirs None (Some "/spool/eml-direct") (Some "/spool/eml-error")
                   (Some "/spool/eml-parking-backup")
                   (Some "/spool/eml-direct-backup"))
         Sample.remailer) [] in
  (forwardOne Scenario.letter Sample.accepting m).1 = FoFalse.
Proof.
  intros m.
  exact (proj1 (forwardOne_parking_unavailable Scenario.letter Sample.accepting
                  m Sample.now [] Sample.session eq_refl)).
Defined.

Lemma forwardOne_delivered_witness :
  let out := forwardOne Scenario.letter Sample.accepting Scenario.queued in
  out.1 = FoInfo Scenario.receipt /\
  emlParkingQueue (self out.2) = ["b.eml"] /\
  List.filter is_fs_request (events_since Scenario.queued out.2)
  = [FsRename (mkPath "/spool/eml-parking" "a.eml")
       (mkPath "/spool/eml-parking-backup" "a.eml")].
Proof.
  intros out. subst out.
  destruct (forwardOne_delivered Scenario.letter Sample.accepting
              Scenario.queued "/spool/eml-parking" "a.eml" ["b.eml"]
              Sample.mailSender Scenario.receipt eq_refl eq_refl
              ltac:(discriminate) eq_refl eq_refl)
    as (Hres & Hself & _ & Hreq).
  split; [exact Hres|]. split; [rewrite Hself; reflexivity | exact Hreq].
Defined.

Lemma forwardOne_consumes_head_witness :
  List.filter is_answer
    (events_since Scenario.queued
       (forwardOne Scenario.letter Sample.refusing Scenario.queued).2) = [].
Proof.
  exact (proj2 (proj2 (forwardOne_consumes_head Scenario.letter Sample.refusing
                         Scenario.queued "/spool/eml-parking" eq_refl))).
Defined.

Lemma forwardOne_without_sender_witness :
  let m :=
    Sample.machine
      (mkDRemailer Sample.config true None 2000 (mkStorage ["a.eml"] [] [] [] [])
         false Sample.dirs (DStatus.mk true "Init SUCCESS") true false false)
      [Sample.file "a.eml"] in
  let out := forwardOne Scenario.letter Sample.accepting m in
  out.1 = FoError (mkError "Cannot forward, <mailSender> is not ready") /\
  disk out.2 = disk m.
Proof.
  intros m out. subst out.
  rewrite (forwardOne_without_sender Scenario.letter Sample.accepting m
             "/spool/eml-parking" "a.eml" [] eq_refl eq_refl
             ltac:(discriminate) eq_refl).
  split; reflexivity.
Defined.

Lemma forwardEml_fulfilled_only_if_witness :
  exists mailOptions,
    Sample.accepting mailOptions = inr Scenario.receipt /\
    List.filter is_submission
      (events_since Scenario.queued
         (forwardEml Scenario.letter Sample.accepting Sample.mailSender
            (mkPath "/spool/eml-parking" "a.eml") Scenario.queued).2)
    = [SendMail mailOptions].
Proof.
  destruct (forwardEml_fulfilled_only_if Scenario.letter Sample.accepting
              Sample.mailSender (mkPath "/spool/eml-parking" "a.eml")
              Scenario.queued Scenario.receipt eq_refl)
    as (_ & _ & file & mail & parsedFrom & recipients & _ & _ & _ & _ & _ & _ &
        Hsent & Hsubmitted).
  eexists. split; [exact Hsent | exact Hsubmitted].
Defined.

Lemma forwardEml_refusals_witness :
  (forwardEml Scenario.letter Sample.accepting Sender.created
     (mkPath "/spool/eml-parking" "a.eml") Scenario.queued).1
  = inl (mkError "Need to call init() before use this class").
Proof.
  pose proof (forwardEml_refusals Scenario.letter Sample.accepting
                Sender.created (mkPath "/spool/eml-parking" "a.eml")
                Scenario.queued) as Hrefusals.
  cbv zeta in Hrefusals.
  exact (proj1 (proj1 Hrefusals eq_refl)).
Defined.

Lemma isStorageReady_loss_is_permanent_witness :
  (isStorageReady false
     (mkMachine (self (isStorageReady true Scenario.unplugged).2)
        (Sample.disk_of []) [])).1 = false.
Proof.
  exact (proj2 (proj2 (isStorageReady_loss_is_permanent Scenario.unplugged))
           eq_refl false _ eq_refl).
Defined.

Lemma scan_storage_unavailable_witness :
  (scanStorageAsync Scenario.unplugged).1
  = inl (mkError "Parking storage folder not available") /\
  (scanStorageSync Scenario.unplugged).1 = inr None.
Proof.
  destruct (scan_storage_unavailable Scenario.unplugged eq_refl)
    as (Hasync & Hsync & _).
  split; [exact Hasync | exact Hsync].
Defined.

Lemma scan_while_scanning_witness :
  (scanStorageAsync
     (Sample.machine (set_emlScanning true Sample.remailer) [])).1
  = inl (mkError "Already scanning...").
Proof.
  exact (proj1 (scan_while_scanning
                  (Sample.machine (set_emlScanning true Sample.remailer) [])
                  eq_refl eq_refl)).
Defined.

Lemma stored_message_is_rescanned_witness :
  let m := Sample.machine Sample.remailer [] in
  let stored :=
    (onData Scenario.letter Sample.accepting Sample.now [] Sample.session m).2 in
  exists snapshot,
    (scanStorageAsync stored).1 = inr snapshot /\
    In (emlFileName Sample.now Sample.session) (parking snapshot).
Proof.
  intros m stored. subst stored.
  destruct (stored_message_is_rescanned Scenario.letter Sample.accepting
              Sample.now [] Sample.session m
              "/spool/eml-parking" "/spool/eml-direct" "/spool/eml-error"
              "/spool/eml-parking-backup" "/spool/eml-direct-backup" _
              eq_refl eq_refl eq_refl eq_refl
              ltac:(vm_compute; eauto) ltac:(vm_compute; eauto)
              ltac:(vm_compute; eauto) ltac:(vm_compute; eauto)
              eq_refl eq_refl)
    as (_ & snapshot & Hscan & Hin & _).
  exists snapshot. split; [exact Hscan | exact Hin].
Defined.

Lemma status_query_forgets_storage_witness :
  (scanStorageAsync
     (mkMachine (self (getSummary Scenario.unplugged).2)
        (Sample.disk_of []) [])).1
  = inl (mkError "Parking storage folder not available").
Proof.
  pose proof (status_query_forgets_storage Scenario.unplugged) as Hquery.
  cbv zeta in Hquery.
  exact (proj2 (proj2 (proj2 (proj2 (proj2 Hquery)))) eq_refl _ eq_refl).
Defined.


Lemma storage_route_refused_witness :
  (startRemailerControlApi 16000 "dury"
     (mkRequest GET "/api/remailer/query/storage" ∅ ∅) Scenario.unplugged).1
  = mkResponse 400 (JsonText "Parking storage folder not available").
Proof.
  pose proof (storage_route_refused 16000 "dury"
                (mkRequest GET "/api/remailer/query/storage" ∅ ∅)
                Scenario.unplugged eq_refl eq_refl) as Hroute.
  cbv zeta in Hroute.
  exact (proj1 Hroute eq_refl).
Defined.

Lemma checkApiKey_padded_key_witness :
  checkApiKey "dury" (Scenario.control {[ "api_key" := " dury  " ]} ∅) = None.
Proof.
  refine (proj1 (checkApiKey_padded_key "dury" " " "  "
                   (Scenario.control {[ "api_key" := " dury  " ]} ∅)
                   eq_refl _ eq_refl eq_refl) _);
    [discriminate | reflexivity].
Defined.

Lemma startAdminAPI_control_witness :
  let req := Scenario.control {[ "api_key" := "dury" ]} ∅ in
  let m := Sample.machine Sample.remailer [] in
  let out := startAdminAPI 16000 "dury" req m in
  out.1 = mkResponse 200 (JsonText "done") /\ self out.2 = self m.
Proof.
  intros req m out. subst out.
  pose proof (startAdminAPI_control 16000 "dury" req m
                eq_refl eq_refl eq_refl) as Hroute.
  cbv zeta in Hroute.
  split; [exact (proj1 Hroute) | vm_compute; reflexivity].
Defined.

Lemma sender_closed_still_ready_witness :
  let ms :=
    Sender.close
      (Sender.init Scenario.hosted Sender.created Scenario.queued).1 in
  Sender.isReady ms = true /\
  forall message m,
    Sender.sendMail Sample.accepting ms message m = (inr None, m).
Proof.
  intros ms. subst ms.
  pose proof (sender_closed_still_ready Scenario.letter Sample.accepting
                Scenario.hosted Sender.created Scenario.queued eq_refl)
    as Hclosed.
  cbv zeta in Hclosed.
  destruct Hclosed as (_ & Hready & Hsend & _).
  split; [exact Hready | exact Hsend].
Defined.

Lemma sender_without_host_witness :
  Sender.isReady
    (Sender.init Scenario.hostless Sender.created Scenario.queued).1 = false.
Proof.
  pose proof (sender_without_host Scenario.letter Sample.accepting
                Scenario.hostless Sender.created Scenario.queued eq_refl)
    as Hhostless.
  cbv zeta in Hhostless.
  exact (proj1 Hhostless).
Defined.
